(** * Mergington High School API: enrollment, sessions and accounts

    A shallow embedding of [src/app.py].  The three module-level
    dictionaries of the program ([users], [sessions], [activities]) are the
    fields of one store that every handler threads; [raise HTTPException]
    is the error branch of the handler monad and leaves the store as it is
    at the point of the raise, exactly as a Python exception does. *)

From Stdlib Require Import ZArith.
From stdpp Require Import gmap strings list fin_maps.

Local Open Scope string_scope.
Local Open Scope Z_scope.

(** ** Data model *)

(** A value of the [users] dictionary: a dict with the three keys
    ["password"], ["role"] and ["name"] (the seed and [create_user] build
    no other shape). *)
Module User.
Record t := mk { password : string; role : string; name : string }.

(** [info.items()], in the insertion order of the dict literal. *)
Definition items (info : t) : list (string * string) :=
  [("password", password info); ("role", role info); ("name", name info)].
End User.

(** The dict [{"email": email, **user}] that [get_current_user] returns. *)
Module CurrentUser.
Record t := mk { email : string; password : string; role : string; name : string }.
End CurrentUser.

(** A value of the [activities] dictionary. *)
Module Activity.
Record t := mk {
  description : string;
  schedule : string;
  max_participants : Z;
  participants : list string
}.

(** [activity["participants"]] replaced, the other keys kept: the effect
    of a list method called on the roster in place. *)
Definition with_participants (activity : t) (roster : list string) : t :=
  mk (description activity) (schedule activity) (max_participants activity) roster.
End Activity.

Record HTTPException := mkHTTPException { status_code : Z; detail : string }.

(** The module-level state of the program. *)
Record Store := mkStore {
  users : gmap string User.t;
  sessions : gmap string string;
  activities : gmap string Activity.t
}.

Definition set_users (us : gmap string User.t) (st : Store) : Store :=
  mkStore us (sessions st) (activities st).

Definition set_sessions (ss : gmap string string) (st : Store) : Store :=
  mkStore (users st) ss (activities st).

Definition set_activities (acts : gmap string Activity.t) (st : Store) : Store :=
  mkStore (users st) (sessions st) acts.

(** ** The handler monad: global state with exceptions *)

Inductive outcome (A : Type) : Type :=
| Raised (e : HTTPException)
| Returned (a : A).
Arguments Raised {A} e.
Arguments Returned {A} a.

Definition Handler (A : Type) : Type := Store -> outcome A * Store.

Definition ret {A} (a : A) : Handler A := fun st => (Returned a, st).

Definition raise {A} (e : HTTPException) : Handler A := fun st => (Raised e, st).

Definition bind {A B} (m : Handler A) (k : A -> Handler B) : Handler B :=
  fun st =>
    match m st with
    | (Returned a, st') => k a st'
    | (Raised e, st') => (Raised e, st')
    end.

Definition gets {A} (f : Store -> A) : Handler A := fun st => (Returned (f st), st).

Definition modify (f : Store -> Store) : Handler unit := fun st => (Returned tt, f st).

Notation "x <- m ;; k" := (bind m (fun x => k))
  (at level 100, m at next level, right associativity).
Notation "m ;;; k" := (bind m (fun _ => k))
  (at level 100, right associativity).

(** ** Python helpers *)

(** Truthiness of a value that is [None] or a [str]: [not v] holds for
    [None] and for the empty string.  [nonempty v] is [Some s] exactly when
    [v] is the truthy string [s]. *)
Definition nonempty (v : option string) : option string :=
  match v with
  | Some s => if bool_decide (s = "") then None else Some s
  | None => None
  end.

(** [list.remove(x)]: drops the first occurrence of [x].  Python raises
    [ValueError] when there is none; the only call is guarded by a
    membership test, and here the list is then returned as it is. *)
Fixpoint remove (x : string) (l : list string) : list string :=
  match l with
  | [] => []
  | y :: l' => if bool_decide (y = x) then l' else y :: remove x l'
  end.

(** [l.count(x)]: the number of occurrences of [x] in [l]. *)
Definition count (x : string) (l : list string) : nat :=
  length (filter (fun y => y = x) l).

(** ** Responses *)

(** The [{"message": ...}] bodies. *)
Record Ack := mkAck { message : string }.

(** The body of a successful login. *)
Module LoginOk.
Record t := mk { message : string; role : string; name : string }.
End LoginOk.

(** What a handler does to the [Response] object it is given. *)
Inductive cookie_action :=
| set_cookie (key value : string) (httponly : bool)
| delete_cookie (key : string).

(** ** Handlers *)

Definition get_activities : Handler (gmap string Activity.t) := gets activities.

(** The dependency that resolves the session cookie ([Cookie(None)]: the
    cookie may be absent). *)
Definition get_current_user (session_token : option string) : Handler CurrentUser.t :=
  ss <- gets sessions ;;
  us <- gets users ;;
  match nonempty session_token with
  | None => raise (mkHTTPException 401 "Not authenticated")
  | Some token =>
      match ss !! token with
      | None => raise (mkHTTPException 401 "Not authenticated")
      | Some email =>
          match us !! email with
          | None => raise (mkHTTPException 401 "Invalid session")
          | Some user =>
              ret (CurrentUser.mk email (User.password user) (User.role user) (User.name user))
          end
      end
  end.

(** [data] is the JSON body, an object whose fields are strings;
    [data.get(k)] is [data !! k].  [session_token] is the value drawn by
    [secrets.token_urlsafe(16)]. *)
Definition login (data : gmap string string) (session_token : string)
  : Handler (LoginOk.t * cookie_action) :=
  let email := data !! "email" in
  let password := data !! "password" in
  us <- gets users ;;
  match email with
  | None => raise (mkHTTPException 401 "Invalid credentials")
  | Some email =>
      match us !! email with
      | None => raise (mkHTTPException 401 "Invalid credentials")
      | Some user =>
          if bool_decide (Some (User.password user) ≠ password)
          then raise (mkHTTPException 401 "Invalid credentials")
          else
            modify (fun st => set_sessions (<[session_token := email]> (sessions st)) st) ;;;
            ret (LoginOk.mk "Login successful" (User.role user) (User.name user),
                 set_cookie "session_token" session_token true)
      end
  end.

Definition logout (session_token : option string) : Handler (Ack * cookie_action) :=
  ss <- gets sessions ;;
  match session_token with
  | Some token =>
      if bool_decide (is_Some (ss !! token))
      then modify (set_sessions (delete token ss))
      else ret tt
  | None => ret tt
  end ;;;
  ret (mkAck "Logged out", delete_cookie "session_token").

Definition get_me (user : CurrentUser.t) : Handler (string * string * string) :=
  ret (CurrentUser.email user, CurrentUser.role user, CurrentUser.name user).

Definition signup_for_activity (activity_name email : string) (user : CurrentUser.t)
  : Handler Ack :=
  acts <- gets activities ;;
  match acts !! activity_name with
  | None => raise (mkHTTPException 404 "Activity not found")
  | Some activity =>
      if bool_decide (CurrentUser.role user = "student")
         && bool_decide (CurrentUser.email user ≠ email)
      then raise (mkHTTPException 403 "Students can only sign up themselves")
      else if bool_decide (email ∈ Activity.participants activity)
      then raise (mkHTTPException 400 "Student is already signed up")
      else
        modify (set_activities
                  (<[activity_name :=
                       Activity.with_participants activity
                         (Activity.participants activity ++ [email])]> acts)) ;;;
        ret (mkAck ("Signed up " +:+ email +:+ " for " +:+ activity_name))
  end.

Definition unregister_from_activity (activity_name email : string) (user : CurrentUser.t)
  : Handler Ack :=
  acts <- gets activities ;;
  match acts !! activity_name with
  | None => raise (mkHTTPException 404 "Activity not found")
  | Some activity =>
      if bool_decide (CurrentUser.role user = "student")
         && bool_decide (CurrentUser.email user ≠ email)
      then raise (mkHTTPException 403 "Students can only unregister themselves")
      else if bool_decide (email ∉ Activity.participants activity)
      then raise (mkHTTPException 400 "Student is not signed up for this activity")
      else
        modify (set_activities
                  (<[activity_name :=
                       Activity.with_participants activity
                         (remove email (Activity.participants activity))]> acts)) ;;;
        ret (mkAck ("Unregistered " +:+ email +:+ " from " +:+ activity_name))
  end.

(** [require_roles(roles)] returns [role_checker], itself a dependency on
    [get_current_user]. *)
Definition require_roles (roles : list string) (session_token : option string)
  : Handler CurrentUser.t :=
  user <- get_current_user session_token ;;
  if bool_decide (CurrentUser.role user ∉ roles)
  then raise (mkHTTPException 403 "Insufficient permissions")
  else ret user.

Definition create_user (data : gmap string string) (user : CurrentUser.t) : Handler Ack :=
  let email := data !! "email" in
  let password := data !! "password" in
  let role := data !! "role" in
  let name := data !! "name" in
  match nonempty email, nonempty password, nonempty role, nonempty name with
  | Some email, Some password, Some role, Some name =>
      us <- gets users ;;
      if bool_decide (is_Some (us !! email))
      then raise (mkHTTPException 400 "User already exists")
      else if bool_decide (role ∉ ["admin"; "staff"; "student"])
      then raise (mkHTTPException 400 "Invalid role")
      else
        modify (set_users (<[email := User.mk password role name]> us)) ;;;
        ret (mkAck ("User " +:+ email +:+ " created with role " +:+ role))
  | _, _, _, _ => raise (mkHTTPException 400 "Missing user fields")
  end.

Definition delete_user (email : string) (user : CurrentUser.t) : Handler Ack :=
  us <- gets users ;;
  match us !! email with
  | None => raise (mkHTTPException 404 "User not found")
  | Some target =>
      if bool_decide (User.role target = "admin")
      then raise (mkHTTPException 403 "Cannot delete another admin")
      else
        modify (set_users (delete email us)) ;;;
        ret (mkAck ("User " +:+ email +:+ " deleted"))
  end.

Definition list_users (user : CurrentUser.t) : Handler (gmap string (list (string * string))) :=
  us <- gets users ;;
  ret ((fun info => filter (fun kv => kv.1 ≠ "password") (User.items info)) <$> us).

(** ** Routes: a handler behind its [Depends(...)] *)

Definition Depends {A} (dependency : option string -> Handler CurrentUser.t)
    (endpoint : CurrentUser.t -> Handler A) (session_token : option string) : Handler A :=
  user <- dependency session_token ;;
  endpoint user.

Definition route_me := Depends get_current_user get_me.

Definition route_signup (activity_name email : string) :=
  Depends get_current_user (signup_for_activity activity_name email).

Definition route_unregister (activity_name email : string) :=
  Depends get_current_user (unregister_from_activity activity_name email).

Definition route_create_user (data : gmap string string) :=
  Depends (require_roles ["admin"; "staff"]) (create_user data).

Definition route_delete_user (email : string) :=
  Depends (require_roles ["admin"]) (delete_user email).

Definition route_list_users :=
  Depends (require_roles ["admin"; "staff"]) list_users.

(** ** The state at start-up *)

Definition seed_users : gmap string User.t :=
  <["admin@mergington.edu" := User.mk "adminpass" "admin" "Admin User"]>
  (<["teacher@mergington.edu" := User.mk "teachpass" "staff" "Teacher T."]>
  (<["student@mergington.edu" := User.mk "studpass" "student" "Student S."]> ∅)).

Definition seed_activities : gmap string Activity.t :=
  list_to_map [
    ("Chess Club",
     Activity.mk "Learn strategies and compete in chess tournaments"
       "Fridays, 3:30 PM - 5:00 PM" 12
       ["michael@mergington.edu"; "daniel@mergington.edu"]);
    ("Programming Class",
     Activity.mk "Learn programming fundamentals and build software projects"
       "Tuesdays and Thursdays, 3:30 PM - 4:30 PM" 20
       ["emma@mergington.edu"; "sophia@mergington.edu"]);
    ("Gym Class",
     Activity.mk "Physical education and sports activities"
       "Mondays, Wednesdays, Fridays, 2:00 PM - 3:00 PM" 30
       ["john@mergington.edu"; "olivia@mergington.edu"]);
    ("Soccer Team",
     Activity.mk "Join the school soccer team and compete in matches"
       "Tuesdays and Thursdays, 4:00 PM - 5:30 PM" 22
       ["liam@mergington.edu"; "noah@mergington.edu"]);
    ("Basketball Team",
     Activity.mk "Practice and play basketball with the school team"
       "Wednesdays and Fridays, 3:30 PM - 5:00 PM" 15
       ["ava@mergington.edu"; "mia@mergington.edu"]);
    ("Art Club",
     Activity.mk "Explore your creativity through painting and drawing"
       "Thursdays, 3:30 PM - 5:00 PM" 15
       ["amelia@mergington.edu"; "harper@mergington.edu"]);
    ("Drama Club",
     Activity.mk "Act, direct, and produce plays and performances"
       "Mondays and Wednesdays, 4:00 PM - 5:30 PM" 20
       ["ella@mergington.edu"; "scarlett@mergington.edu"]);
    ("Math Club",
     Activity.mk "Solve challenging problems and participate in math competitions"
       "Tuesdays, 3:30 PM - 4:30 PM" 10
       ["james@mergington.edu"; "benjamin@mergington.edu"]);
    ("Debate Team",
     Activity.mk "Develop public speaking and argumentation skills"
       "Fridays, 4:00 PM - 5:30 PM" 12
       ["charlotte@mergington.edu"; "henry@mergington.edu"])
  ].

Definition seed : Store := mkStore seed_users ∅ seed_activities.

(** The three seeded accounts as [get_current_user] returns them. *)
Definition admin_user : CurrentUser.t :=
  CurrentUser.mk "admin@mergington.edu" "adminpass" "admin" "Admin User".
Definition teacher_user : CurrentUser.t :=
  CurrentUser.mk "teacher@mergington.edu" "teachpass" "staff" "Teacher T.".
Definition student_user : CurrentUser.t :=
  CurrentUser.mk "student@mergington.edu" "studpass" "student" "Student S.".

(** The ownership test both enrollment handlers make inline:
    [user["role"] == "student" and user["email"] != email] is false. *)
Definition may_act_for (user : CurrentUser.t) (email : string) : Prop :=
  CurrentUser.role user ≠ "student" ∨ CurrentUser.email user = email.

(** ** Changing the declared capacities

    [recap cap st] is [st] with the ["max_participants"] of every activity
    [name] replaced by [cap name]; nothing else differs.  Two stores that
    agree on everything but capacities are [recap]s of one another. *)
Definition with_max_participants (activity : Activity.t) (n : Z) : Activity.t :=
  Activity.mk (Activity.description activity) (Activity.schedule activity) n
    (Activity.participants activity).

Definition recap (cap : string -> Z) (st : Store) : Store :=
  set_activities
    (map_imap (fun name activity => Some (with_max_participants activity (cap name)))
       (activities st))
    st.

(** Two activity records that agree on every key but ["max_participants"]. *)
Definition same_but_capacity (a1 a2 : Activity.t) : Prop :=
  Activity.description a1 = Activity.description a2
  ∧ Activity.schedule a1 = Activity.schedule a2
  ∧ Activity.participants a1 = Activity.participants a2.

(** A handler is blind to capacities when changing them changes neither
    what it returns or raises nor what it does to the store. *)
Definition capacity_blind {A} (h : Handler A) : Prop :=
  ∀ cap st, h (recap cap st) = ((h st).1, recap cap (h st).2).

(** ** The application: one request at a time

    The routes the decorators register, as one function from requests to
    handlers.  A login request carries the token that
    [secrets.token_urlsafe(16)] draws for it.  A request here is one that
    reaches its handler with a body whose fields are strings and with its
    query parameters present; what the framework answers before a handler
    runs, and bodies with fields of other JSON types, are not described. *)

Definition root : Handler string := ret "/static/index.html".

Inductive request :=
| GET_root
| GET_activities
| POST_login (data : gmap string string) (drawn_token : string)
| POST_logout (cookie : option string)
| GET_me (cookie : option string)
| POST_signup (cookie : option string) (activity_name email : string)
| DELETE_unregister (cookie : option string) (activity_name email : string)
| POST_users_create (cookie : option string) (data : gmap string string)
| DELETE_users (cookie : option string) (email : string)
| GET_users (cookie : option string).

Inductive response :=
| Redirect (url : string)
| Catalog (acts : gmap string Activity.t)
| LoggedIn (body : LoginOk.t) (cookie : cookie_action)
| LoggedOut (body : Ack) (cookie : cookie_action)
| Me (email role name : string)
| Message (body : Ack)
| Users (listing : gmap string (list (string * string))).

Definition reply {A} (wrap : A -> response) (h : Handler A) : Handler response :=
  a <- h ;; ret (wrap a).

Definition app (r : request) : Handler response :=
  match r with
  | GET_root => reply Redirect root
  | GET_activities => reply Catalog get_activities
  | POST_login data drawn_token =>
      reply (fun out => LoggedIn out.1 out.2) (login data drawn_token)
  | POST_logout cookie => reply (fun out => LoggedOut out.1 out.2) (logout cookie)
  | GET_me cookie => reply (fun out => Me out.1.1 out.1.2 out.2) (route_me cookie)
  | POST_signup cookie activity_name email =>
      reply Message (route_signup activity_name email cookie)
  | DELETE_unregister cookie activity_name email =>
      reply Message (route_unregister activity_name email cookie)
  | POST_users_create cookie data => reply Message (route_create_user data cookie)
  | DELETE_users cookie email => reply Message (route_delete_user email cookie)
  | GET_users cookie => reply Users (route_list_users cookie)
  end.

(** The store after a sequence of requests, served one after the other. *)
Fixpoint run (rs : list request) (st : Store) : Store :=
  match rs with
  | [] => st
  | r :: rs' => run rs' (app r st).2
  end.

(** The ways in which one request can leave the store. *)
Inductive effect (st : Store) : Store -> Prop :=
| effect_none : effect st st
| effect_session_added token email user :
    users st !! email = Some user →
    effect st (set_sessions (<[token := email]> (sessions st)) st)
| effect_session_removed token :
    effect st (set_sessions (delete token (sessions st)) st)
| effect_enrolled name activity email :
    activities st !! name = Some activity →
    email ∉ Activity.participants activity →
    effect st (set_activities
                 (<[name := Activity.with_participants activity
                              (Activity.participants activity ++ [email])]>
                    (activities st)) st)
| effect_withdrawn name activity email :
    activities st !! name = Some activity →
    email ∈ Activity.participants activity →
    effect st (set_activities
                 (<[name := Activity.with_participants activity
                              (remove email (Activity.participants activity))]>
                    (activities st)) st)
| effect_user_created email password role name :
    users st !! email = None →
    email ≠ "" → password ≠ "" → name ≠ "" →
    role ∈ ["admin"; "staff"; "student"] →
    effect st (set_users (<[email := User.mk password role name]> (users st)) st)
| effect_user_deleted email target :
    users st !! email = Some target →
    User.role target ≠ "admin" →
    effect st (set_users (delete email (users st)) st).

(** ** Invariants *)

(** No roster lists an email twice. *)
Definition rosters_nodup (st : Store) : Prop :=
  map_Forall (fun _ activity => NoDup (Activity.participants activity)) (activities st).

(** Every account has one of the three roles. *)
Definition roles_valid (st : Store) : Prop :=
  map_Forall (fun _ info => User.role info ∈ ["admin"; "staff"; "student"]) (users st).

(** Two activity records that agree on every key but ["participants"]. *)
Definition same_but_roster (a1 a2 : Activity.t) : Prop :=
  Activity.description a1 = Activity.description a2
  ∧ Activity.schedule a1 = Activity.schedule a2
  ∧ Activity.max_participants a1 = Activity.max_participants a2.

(** * Properties *)

(** ** Running the program on the seed *)

Example seed_student_signs_up_self :
  (signup_for_activity "Chess Club" "student@mergington.edu" student_user seed).1
  = Returned (mkAck "Signed up student@mergington.edu for Chess Club").
Proof. vm_compute. reflexivity. Qed.

Example seed_student_signs_up_other :
  (signup_for_activity "Chess Club" "emma@mergington.edu" student_user seed).1
  = Raised (mkHTTPException 403 "Students can only sign up themselves").
Proof. vm_compute. reflexivity. Qed.

Example seed_unknown_activity :
  (signup_for_activity "Knitting" "emma@mergington.edu" student_user seed).1
  = Raised (mkHTTPException 404 "Activity not found").
Proof. vm_compute. reflexivity. Qed.

Example seed_login_admin :
  (login (<["email" := "admin@mergington.edu"]> (<["password" := "adminpass"]> ∅)) "tok" seed).1
  = Returned (LoginOk.mk "Login successful" "admin" "Admin User",
              set_cookie "session_token" "tok" true).
Proof. vm_compute. reflexivity. Qed.

Example seed_login_wrongpass :
  login (<["email" := "admin@mergington.edu"]> (<["password" := "wrongpass"]> ∅)) "tok" seed
  = (Raised (mkHTTPException 401 "Invalid credentials"), seed).
Proof. vm_compute. reflexivity. Qed.

(** ** Python list facts *)

Lemma remove_not_in (x : string) (l : list string) : x ∉ l → remove x l = l.
Proof.
  induction l as [|y l IH]; intros Hx; [reflexivity|].
  apply not_elem_of_cons in Hx as [Hne Hl]. simpl.
  rewrite bool_decide_eq_false_2 by congruence. by rewrite IH.
Qed.

Lemma remove_app_last (x : string) (l : list string) : x ∉ l → remove x (l ++ [x]) = l.
Proof.
  induction l as [|y l IH]; intros Hx; simpl.
  - by rewrite bool_decide_eq_true_2.
  - apply not_elem_of_cons in Hx as [Hne Hl].
    rewrite bool_decide_eq_false_2 by congruence. by rewrite IH.
Qed.

Lemma count_not_in (x : string) (l : list string) : x ∉ l → count x l = 0%nat.
Proof.
  unfold count. induction l as [|y l IH]; intros Hx; [reflexivity|].
  apply not_elem_of_cons in Hx as [Hne Hl].
  rewrite filter_cons_False by congruence. auto.
Qed.

Lemma count_app (x : string) (l1 l2 : list string) :
  count x (l1 ++ l2) = (count x l1 + count x l2)%nat.
Proof. unfold count. by rewrite filter_app, length_app. Qed.

Lemma count_append_new (x : string) (l : list string) : x ∉ l → count x (l ++ [x]) = 1%nat.
Proof.
  intros Hx. rewrite count_app, count_not_in by done.
  unfold count. by rewrite filter_cons_True.
Qed.

(** ** Store facts *)

Lemma set_activities_same (st : Store) : set_activities (activities st) st = st.
Proof. by destruct st. Qed.

Lemma set_activities_twice (a1 a2 : gmap string Activity.t) (st : Store) :
  set_activities a2 (set_activities a1 st) = set_activities a2 st.
Proof. reflexivity. Qed.

Lemma with_participants_same (activity : Activity.t) :
  Activity.with_participants activity (Activity.participants activity) = activity.
Proof. by destruct activity. Qed.

Lemma with_participants_twice (activity : Activity.t) (r1 r2 : list string) :
  Activity.with_participants (Activity.with_participants activity r1) r2
  = Activity.with_participants activity r2.
Proof. reflexivity. Qed.

(** ** The four cases of each enrollment handler *)

Ltac run_handler :=
  unfold bind, gets, modify, raise, ret; simpl.

Section Enrollment.
Variables (st : Store) (activity_name email : string) (user : CurrentUser.t).

Lemma ownership_test_true :
  CurrentUser.role user = "student" → CurrentUser.email user ≠ email →
  bool_decide (CurrentUser.role user = "student")
    && bool_decide (CurrentUser.email user ≠ email) = true.
Proof. intros Hr He. by rewrite !bool_decide_eq_true_2. Qed.

Lemma ownership_test_false :
  may_act_for user email →
  bool_decide (CurrentUser.role user = "student")
    && bool_decide (CurrentUser.email user ≠ email) = false.
Proof.
  intros [Hr | He].
  - by rewrite (bool_decide_eq_false_2 _ Hr).
  - rewrite (bool_decide_eq_false_2 (CurrentUser.email user ≠ email)) by tauto.
    apply andb_false_r.
Qed.

Lemma signup_not_found :
  activities st !! activity_name = None →
  signup_for_activity activity_name email user st
  = (Raised (mkHTTPException 404 "Activity not found"), st).
Proof. intros H. unfold signup_for_activity. run_handler. by rewrite H. Qed.

Lemma unregister_not_found :
  activities st !! activity_name = None →
  unregister_from_activity activity_name email user st
  = (Raised (mkHTTPException 404 "Activity not found"), st).
Proof. intros H. unfold unregister_from_activity. run_handler. by rewrite H. Qed.

Variable activity : Activity.t.
Hypothesis Hactivity : activities st !! activity_name = Some activity.

Lemma signup_forbidden :
  CurrentUser.role user = "student" → CurrentUser.email user ≠ email →
  signup_for_activity activity_name email user st
  = (Raised (mkHTTPException 403 "Students can only sign up themselves"), st).
Proof.
  intros Hr He. unfold signup_for_activity. run_handler.
  by rewrite Hactivity, ownership_test_true.
Qed.

Lemma unregister_forbidden :
  CurrentUser.role user = "student" → CurrentUser.email user ≠ email →
  unregister_from_activity activity_name email user st
  = (Raised (mkHTTPException 403 "Students can only unregister themselves"), st).
Proof.
  intros Hr He. unfold unregister_from_activity. run_handler.
  by rewrite Hactivity, ownership_test_true.
Qed.

Lemma signup_already_enrolled :
  may_act_for user email → email ∈ Activity.participants activity →
  signup_for_activity activity_name email user st
  = (Raised (mkHTTPException 400 "Student is already signed up"), st).
Proof.
  intros Hown Hin. unfold signup_for_activity. run_handler.
  by rewrite Hactivity, ownership_test_false, bool_decide_eq_true_2.
Qed.

Lemma unregister_not_enrolled :
  may_act_for user email → email ∉ Activity.participants activity →
  unregister_from_activity activity_name email user st
  = (Raised (mkHTTPException 400 "Student is not signed up for this activity"), st).
Proof.
  intros Hown Hin. unfold unregister_from_activity. run_handler.
  by rewrite Hactivity, ownership_test_false, bool_decide_eq_true_2.
Qed.

Lemma signup_success :
  may_act_for user email → email ∉ Activity.participants activity →
  signup_for_activity activity_name email user st
  = (Returned (mkAck ("Signed up " +:+ email +:+ " for " +:+ activity_name)),
     set_activities
       (<[activity_name :=
            Activity.with_participants activity
              (Activity.participants activity ++ [email])]> (activities st)) st).
Proof.
  intros Hown Hin. unfold signup_for_activity. run_handler.
  by rewrite Hactivity, ownership_test_false, bool_decide_eq_false_2.
Qed.

Lemma unregister_success :
  may_act_for user email → email ∈ Activity.participants activity →
  unregister_from_activity activity_name email user st
  = (Returned (mkAck ("Unregistered " +:+ email +:+ " from " +:+ activity_name)),
     set_activities
       (<[activity_name :=
            Activity.with_participants activity
              (remove email (Activity.participants activity))]> (activities st)) st).
Proof.
  intros Hown Hin. unfold unregister_from_activity. run_handler.
  rewrite Hactivity, ownership_test_false by done.
  rewrite bool_decide_eq_false_2; [done | tauto].
Qed.
End Enrollment.

(** A signup that returns went through all three tests. *)
Lemma signup_returned_inv (st st' : Store) (activity_name email : string)
    (user : CurrentUser.t) (ack : Ack) :
  signup_for_activity activity_name email user st = (Returned ack, st') →
  ∃ activity,
    activities st !! activity_name = Some activity
    ∧ may_act_for user email
    ∧ email ∉ Activity.participants activity.
Proof.
  intros Hrun.
  destruct (activities st !! activity_name) as [activity|] eqn:Hact.
  2: { by rewrite signup_not_found in Hrun. }
  exists activity. split; [done|].
  destruct (decide (CurrentUser.role user = "student")) as [Hr|Hr].
  - destruct (decide (CurrentUser.email user = email)) as [He|He].
    + split; [by right|]. intros Hin.
      rewrite (signup_already_enrolled _ _ _ _ _ Hact) in Hrun; [done | by right | done].
    + by rewrite (signup_forbidden _ _ _ _ _ Hact) in Hrun.
  - split; [by left|]. intros Hin.
    rewrite (signup_already_enrolled _ _ _ _ _ Hact) in Hrun; [done | by left | done].
Qed.

(** Whatever a signup raises, it raises before touching the store. *)
Lemma signup_raised_inv (st st' : Store) (activity_name email : string)
    (user : CurrentUser.t) (e : HTTPException) :
  signup_for_activity activity_name email user st = (Raised e, st') → st' = st.
Proof.
  unfold signup_for_activity. run_handler.
  destruct (activities st !! activity_name) as [activity|]; [|congruence].
  destruct (_ && _); [congruence|].
  case_bool_decide; congruence.
Qed.

(** ** Enrollment claims *)

(** C1. Ownership rule of the enrollment operations.  On an activity of
    the catalog (an unknown name is answered 404 before the rule is
    consulted), a user whose role is ["student"] and whose email differs
    from the target email is refused with status 403 by both
    [signup_for_activity] and [unregister_from_activity], the store being
    left as it was.  Whenever the role is not ["student"] or the user's
    email is the target email, neither handler raises a 403, whatever the
    activity name and the store. *)
Theorem ownership_rule (st : Store) (activity_name E : string) (U : CurrentUser.t) :
  (is_Some (activities st !! activity_name) →
   CurrentUser.role U = "student" → CurrentUser.email U ≠ E →
   signup_for_activity activity_name E U st
   = (Raised (mkHTTPException 403 "Students can only sign up themselves"), st)
   ∧ unregister_from_activity activity_name E U st
     = (Raised (mkHTTPException 403 "Students can only unregister themselves"), st))
  ∧ (CurrentUser.role U ≠ "student" ∨ CurrentUser.email U = E →
     ∀ e, (signup_for_activity activity_name E U st).1 = Raised e
          ∨ (unregister_from_activity activity_name E U st).1 = Raised e →
          status_code e ≠ 403).
Proof.
  split.
  - intros [activity Hact] Hr He. split.
    + by apply signup_forbidden with activity.
    + by apply unregister_forbidden with activity.
  - intros Hown e.
    destruct (activities st !! activity_name) as [activity|] eqn:Hact.
    + destruct (decide (E ∈ Activity.participants activity)) as [Hin|Hin].
      * rewrite (signup_already_enrolled _ _ _ _ _ Hact Hown Hin).
        rewrite (unregister_success _ _ _ _ _ Hact Hown Hin).
        simpl. intros [[= <-] | [=]]. done.
      * rewrite (signup_success _ _ _ _ _ Hact Hown Hin).
        rewrite (unregister_not_enrolled _ _ _ _ _ Hact Hown Hin).
        simpl. intros [[=] | [= <-]]. done.
    + rewrite signup_not_found, unregister_not_found by done.
      simpl. intros [[= <-] | [= <-]]; done.
Qed.

Lemma ownership_rule_witness :
  is_Some (activities seed !! "Chess Club")
  ∧ CurrentUser.role student_user = "student"
  ∧ CurrentUser.email student_user ≠ "emma@mergington.edu"
  ∧ (signup_for_activity "Chess Club" "emma@mergington.edu" student_user seed
     = (Raised (mkHTTPException 403 "Students can only sign up themselves"), seed)
     ∧ unregister_from_activity "Chess Club" "emma@mergington.edu" student_user seed
       = (Raised (mkHTTPException 403 "Students can only unregister themselves"), seed))
  ∧ (CurrentUser.role teacher_user ≠ "student"
     ∨ CurrentUser.email teacher_user = "emma@mergington.edu")
  ∧ (∀ e, (signup_for_activity "Chess Club" "emma@mergington.edu" teacher_user seed).1
          = Raised e
          ∨ (unregister_from_activity "Chess Club" "emma@mergington.edu" teacher_user seed).1
            = Raised e →
          status_code e ≠ 403).
Proof.
  assert (H1 : is_Some (activities seed !! "Chess Club")) by (vm_compute; eauto).
  assert (H2 : CurrentUser.role student_user = "student") by reflexivity.
  assert (H3 : CurrentUser.email student_user ≠ "emma@mergington.edu") by (vm_compute; discriminate).
  assert (H4 : CurrentUser.role teacher_user ≠ "student"
               ∨ CurrentUser.email teacher_user = "emma@mergington.edu")
    by (left; vm_compute; discriminate).
  split; [exact H1|]. split; [exact H2|]. split; [exact H3|].
  split; [|split; [exact H4|]].
  - exact (proj1 (ownership_rule seed "Chess Club" "emma@mergington.edu" student_user)
             H1 H2 H3).
  - exact (proj2 (ownership_rule seed "Chess Club" "emma@mergington.edu" teacher_user) H4).
Defined.

(** C2. Signup success.  For an activity of the catalog and an email that
    is not on its roster, a signup made by a user who is not a student
    (staff, admin) or by the student themselves returns its
    acknowledgement; afterwards the roster stored for that activity is the
    old roster followed by the email, and the email occurs exactly once in
    the stored roster.  The other fields of the activity, the other
    activities, the accounts and the sessions are as before. *)
Theorem signup_appends_once (st : Store) (A S : string) (U : CurrentUser.t)
    (activity : Activity.t) :
  activities st !! A = Some activity →
  S ∉ Activity.participants activity →
  CurrentUser.role U ≠ "student" ∨ CurrentUser.email U = S →
  let result := signup_for_activity A S U st in
  result.1 = Returned (mkAck ("Signed up " +:+ S +:+ " for " +:+ A))
  ∧ (∃ activity',
       activities result.2 !! A = Some activity'
       ∧ Activity.participants activity' = (Activity.participants activity ++ [S])%list
       ∧ count S (Activity.participants activity') = 1%nat
       ∧ Activity.description activity' = Activity.description activity
       ∧ Activity.schedule activity' = Activity.schedule activity
       ∧ Activity.max_participants activity' = Activity.max_participants activity)
  ∧ activities result.2 !! A
    = Some (Activity.with_participants activity (Activity.participants activity ++ [S]))
  ∧ count S (Activity.participants activity ++ [S]) = 1%nat
  ∧ (∀ B, B ≠ A → activities result.2 !! B = activities st !! B)
  ∧ users result.2 = users st
  ∧ sessions result.2 = sessions st.
Proof.
  intros Hact Hin Hown result. subst result.
  rewrite (signup_success _ _ _ _ _ Hact Hown Hin). simpl.
  split; [done|]. split.
  { eexists. split; [apply lookup_insert_eq|]. simpl.
    split; [done|]. split; [by apply count_append_new | done]. }
  split; [by rewrite lookup_insert_eq|].
  split; [by apply count_append_new|].
  split; [|done]. intros B HB. by rewrite lookup_insert_ne.
Qed.

Lemma signup_appends_once_witness :
  let activity := Activity.mk "Learn strategies and compete in chess tournaments"
                    "Fridays, 3:30 PM - 5:00 PM" 12
                    ["michael@mergington.edu"; "daniel@mergington.edu"] in
  let result := signup_for_activity "Chess Club" "emma@mergington.edu" teacher_user seed in
  activities seed !! "Chess Club" = Some activity
  ∧ ("emma@mergington.edu" ∉ Activity.participants activity)
  ∧ (CurrentUser.role teacher_user ≠ "student"
     ∨ CurrentUser.email teacher_user = "emma@mergington.edu")
  ∧ result.1 = Returned (mkAck "Signed up emma@mergington.edu for Chess Club")
  ∧ ∃ activity',
      activities result.2 !! "Chess Club" = Some activity'
      ∧ Activity.participants activity'
        = ["michael@mergington.edu"; "daniel@mergington.edu"; "emma@mergington.edu"]
      ∧ count "emma@mergington.edu" (Activity.participants activity') = 1%nat.
Proof.
  intros activity result.
  assert (H1 : activities seed !! "Chess Club" = Some activity) by (vm_compute; reflexivity).
  assert (H2 : "emma@mergington.edu" ∉ Activity.participants activity)
    by (apply (bool_decide_unpack _); vm_compute; exact I).
  assert (H3 : CurrentUser.role teacher_user ≠ "student"
               ∨ CurrentUser.email teacher_user = "emma@mergington.edu")
    by (left; vm_compute; discriminate).
  split; [exact H1|]. split; [exact H2|]. split; [exact H3|].
  destruct (signup_appends_once seed "Chess Club" "emma@mergington.edu" teacher_user
              activity H1 H2 H3) as (Hr & (activity' & Hl & Hp & Hc & _) & _).
  split; [exact Hr|]. exists activity'.
  split; [exact Hl|]. split; [exact Hp | exact Hc].
Defined.

(** C3. Signup failures, in order, and their atomicity.  An activity name
    absent from the catalog is answered 404 whoever asks and whatever the
    email; on a known activity a student acting for another email is
    answered 403 whether or not that email is enrolled; past the ownership
    test an email already on the roster is answered 400 "already signed
    up".  After a signup that returned, the same signup again (by the same
    user, or by any user who passes the ownership test) is answered 400
    "already signed up".  Every signup that raises leaves the whole store,
    hence every roster, as it was. *)
Theorem signup_failure_precedence (st : Store) (A S : string) (U : CurrentUser.t) :
  (activities st !! A = None →
   signup_for_activity A S U st = (Raised (mkHTTPException 404 "Activity not found"), st))
  ∧ (is_Some (activities st !! A) →
     CurrentUser.role U = "student" → CurrentUser.email U ≠ S →
     signup_for_activity A S U st
     = (Raised (mkHTTPException 403 "Students can only sign up themselves"), st))
  ∧ (∀ activity, activities st !! A = Some activity →
     CurrentUser.role U ≠ "student" ∨ CurrentUser.email U = S →
     S ∈ Activity.participants activity →
     signup_for_activity A S U st
     = (Raised (mkHTTPException 400 "Student is already signed up"), st))
  ∧ (∀ ack st1, signup_for_activity A S U st = (Returned ack, st1) →
     signup_for_activity A S U st1
     = (Raised (mkHTTPException 400 "Student is already signed up"), st1)
     ∧ ∀ U', CurrentUser.role U' ≠ "student" ∨ CurrentUser.email U' = S →
         signup_for_activity A S U' st1
         = (Raised (mkHTTPException 400 "Student is already signed up"), st1))
  ∧ (∀ e st', signup_for_activity A S U st = (Raised e, st') → st' = st).
Proof.
  split; [apply signup_not_found|].
  split; [intros [activity Hact]; by apply signup_forbidden with activity|].
  split; [intros activity Hact Hown Hin; by apply signup_already_enrolled with activity|].
  split; [|intros e st'; apply signup_raised_inv].
  intros ack st1 Hrun.
  destruct (signup_returned_inv _ _ _ _ _ _ Hrun) as (activity & Hact & Hown & Hin).
  rewrite (signup_success _ _ _ _ _ Hact Hown Hin) in Hrun.
  injection Hrun as _ <-.
  assert (Hact1 : activities
                    (set_activities
                       (<[A := Activity.with_participants activity
                                 (Activity.participants activity ++ [S])]>
                          (activities st)) st) !! A
                  = Some (Activity.with_participants activity
                            (Activity.participants activity ++ [S])))
    by (simpl; by rewrite lookup_insert_eq).
  assert (Hin1 : S ∈ Activity.participants
                       (Activity.with_participants activity
                          (Activity.participants activity ++ [S])))
    by (simpl; apply elem_of_app; right; apply list_elem_of_here).
  split.
  - by apply signup_already_enrolled with (1 := Hact1).
  - intros U' Hown'. by apply signup_already_enrolled with (1 := Hact1).
Qed.

Lemma signup_failure_precedence_witness :
  let A := "Chess Club" in
  let S := "emma@mergington.edu" in
  let st1 := (signup_for_activity A S teacher_user seed).2 in
  activities seed !! "Knitting" = None
  ∧ signup_for_activity "Knitting" S teacher_user seed
    = (Raised (mkHTTPException 404 "Activity not found"), seed)
  ∧ signup_for_activity A S teacher_user seed
    = (Returned (mkAck "Signed up emma@mergington.edu for Chess Club"), st1)
  ∧ signup_for_activity A S teacher_user st1
    = (Raised (mkHTTPException 400 "Student is already signed up"), st1).
Proof.
  intros A S st1.
  assert (H1 : activities seed !! "Knitting" = None) by (vm_compute; reflexivity).
  assert (H2 : signup_for_activity A S teacher_user seed
               = (Returned (mkAck "Signed up emma@mergington.edu for Chess Club"), st1))
    by (vm_compute; reflexivity).
  split; [exact H1|].
  split; [exact (proj1 (signup_failure_precedence seed "Knitting" S teacher_user) H1)|].
  split; [exact H2|].
  exact (proj1 (proj1 (proj2 (proj2 (proj2
           (signup_failure_precedence seed A S teacher_user)))) _ _ H2)).
Defined.

(** C4. Round trip.  If a signup for activity [A] and email [S] returns,
    then an unregister for the same [A] and [S], made on the resulting
    store by any user who passes the ownership test, returns as well and
    gives back the store the signup started from: the roster of [A], and
    with it the whole catalog, is exactly as before the signup. *)
Theorem signup_unregister_round_trip (st st1 : Store) (A S : string)
    (U1 U2 : CurrentUser.t) (ack : Ack) :
  signup_for_activity A S U1 st = (Returned ack, st1) →
  CurrentUser.role U2 ≠ "student" ∨ CurrentUser.email U2 = S →
  unregister_from_activity A S U2 st1
  = (Returned (mkAck ("Unregistered " +:+ S +:+ " from " +:+ A)), st).
Proof.
  intros Hrun Hown2.
  destruct (signup_returned_inv _ _ _ _ _ _ Hrun) as (activity & Hact & Hown & Hin).
  rewrite (signup_success _ _ _ _ _ Hact Hown Hin) in Hrun.
  injection Hrun as _ <-.
  erewrite unregister_success; [| simpl; apply lookup_insert_eq | done |].
  2: { simpl. apply elem_of_app. right. apply list_elem_of_here. }
  simpl. rewrite remove_app_last by done.
  rewrite insert_insert_eq.
  rewrite with_participants_twice, with_participants_same.
  rewrite insert_id by done.
  by rewrite set_activities_twice, set_activities_same.
Qed.

Lemma signup_unregister_round_trip_witness :
  let A := "Chess Club" in
  let S := "student@mergington.edu" in
  let st1 := (signup_for_activity A S student_user seed).2 in
  signup_for_activity A S student_user seed
  = (Returned (mkAck "Signed up student@mergington.edu for Chess Club"), st1)
  ∧ (CurrentUser.role teacher_user ≠ "student" ∨ CurrentUser.email teacher_user = S)
  ∧ unregister_from_activity A S teacher_user st1
    = (Returned (mkAck "Unregistered student@mergington.edu from Chess Club"), seed).
Proof.
  intros A S st1.
  assert (H1 : signup_for_activity A S student_user seed
               = (Returned (mkAck "Signed up student@mergington.edu for Chess Club"), st1))
    by (vm_compute; reflexivity).
  assert (H2 : CurrentUser.role teacher_user ≠ "student" ∨ CurrentUser.email teacher_user = S)
    by (left; vm_compute; discriminate).
  split; [exact H1|]. split; [exact H2|].
  exact (signup_unregister_round_trip seed st1 A S student_user teacher_user _ H1 H2).
Defined.

(** ** Capacities *)

Lemma recap_lookup (cap : string -> Z) (st : Store) (A : string) :
  activities (recap cap st) !! A
  = (fun activity => with_max_participants activity (cap A)) <$> activities st !! A.
Proof.
  unfold recap. simpl. rewrite map_lookup_imap.
  by destruct (activities st !! A).
Qed.

Lemma recap_set_roster (cap : string -> Z) (st : Store) (A : string)
    (activity : Activity.t) (roster : list string) :
  set_activities
    (<[A := Activity.with_participants (with_max_participants activity (cap A)) roster]>
       (activities (recap cap st)))
    (recap cap st)
  = recap cap
      (set_activities (<[A := Activity.with_participants activity roster]> (activities st)) st).
Proof.
  unfold recap, set_activities. simpl. f_equal.
  by rewrite map_imap_insert.
Qed.

(** [recap] reaches every store that differs in capacities only. *)
Lemma recap_covers (st1 st2 : Store) :
  users st1 = users st2 →
  sessions st1 = sessions st2 →
  (∀ name, option_Forall2 same_but_capacity (activities st1 !! name) (activities st2 !! name)) →
  st2 = recap (fun name => from_option Activity.max_participants 0 (activities st2 !! name)) st1.
Proof.
  destruct st1 as [us1 ss1 acts1], st2 as [us2 ss2 acts2]. simpl.
  intros -> -> Hacts. unfold recap, set_activities. simpl. f_equal.
  apply map_eq. intros name. rewrite map_lookup_imap.
  destruct (Hacts name) as [a1 a2 (Hd & Hs & Hp) | ]; simpl; [|done].
  destruct a1, a2. simpl in *. by subst.
Qed.

Section CapacityBlind.
Context {A B : Type}.

Lemma blind_ret (a : A) : capacity_blind (ret a).
Proof. by intros cap st. Qed.

Lemma blind_raise (e : HTTPException) : capacity_blind (@raise A e).
Proof. by intros cap st. Qed.

Lemma blind_bind (m : Handler A) (k : A -> Handler B) :
  capacity_blind m → (∀ a, capacity_blind (k a)) → capacity_blind (bind m k).
Proof.
  intros Hm Hk cap st. unfold bind. rewrite Hm.
  destruct (m st) as [[e|a] st']; simpl; [done|].
  rewrite Hk. by destruct (k a st').
Qed.

Lemma blind_gets_users (k : gmap string User.t -> Handler B) :
  (∀ us, capacity_blind (k us)) → capacity_blind (bind (gets users) k).
Proof. intros Hk cap st. unfold bind, gets. simpl. rewrite Hk. by destruct (k _ st). Qed.

Lemma blind_gets_sessions (k : gmap string string -> Handler B) :
  (∀ ss, capacity_blind (k ss)) → capacity_blind (bind (gets sessions) k).
Proof. intros Hk cap st. unfold bind, gets. simpl. rewrite Hk. by destruct (k _ st). Qed.
End CapacityBlind.

Lemma blind_set_users (us : gmap string User.t) : capacity_blind (modify (set_users us)).
Proof. by intros cap st. Qed.

Lemma blind_set_sessions (f : Store -> gmap string string) :
  (∀ cap st, f (recap cap st) = f st) →
  capacity_blind (modify (fun st => set_sessions (f st) st)).
Proof. intros Hf cap st. unfold modify. simpl. by rewrite Hf. Qed.

Lemma blind_get_current_user (session_token : option string) :
  capacity_blind (get_current_user session_token).
Proof.
  unfold get_current_user.
  apply blind_gets_sessions; intros ss. apply blind_gets_users; intros us.
  destruct (nonempty session_token) as [token|]; [|apply blind_raise].
  destruct (ss !! token) as [email|]; [|apply blind_raise].
  destruct (us !! email); [apply blind_ret | apply blind_raise].
Qed.

Lemma blind_require_roles (roles : list string) (session_token : option string) :
  capacity_blind (require_roles roles session_token).
Proof.
  unfold require_roles. apply blind_bind; [apply blind_get_current_user|].
  intros user. case_bool_decide; [apply blind_raise | apply blind_ret].
Qed.

Lemma blind_login (data : gmap string string) (session_token : string) :
  capacity_blind (login data session_token).
Proof.
  unfold login. apply blind_gets_users; intros us.
  destruct (data !! "email") as [email|]; [|apply blind_raise].
  destruct (us !! email) as [user|]; [|apply blind_raise].
  case_bool_decide; [apply blind_raise|].
  apply blind_bind; [by apply blind_set_sessions | intros _; apply blind_ret].
Qed.

Lemma blind_logout (session_token : option string) : capacity_blind (logout session_token).
Proof.
  unfold logout. apply blind_gets_sessions; intros ss.
  apply blind_bind; [|intros _; apply blind_ret].
  destruct session_token as [token|]; [|apply blind_ret].
  case_bool_decide; [|apply blind_ret].
  by apply (blind_set_sessions (fun _ => delete token ss)).
Qed.

Lemma blind_create_user (data : gmap string string) (user : CurrentUser.t) :
  capacity_blind (create_user data user).
Proof.
  unfold create_user.
  destruct (nonempty (data !! "email")) as [email|]; [|apply blind_raise].
  destruct (nonempty (data !! "password")) as [password|]; [|apply blind_raise].
  destruct (nonempty (data !! "role")) as [role|]; [|apply blind_raise].
  destruct (nonempty (data !! "name")) as [name|]; [|apply blind_raise].
  apply blind_gets_users; intros us.
  case_bool_decide; [apply blind_raise|].
  case_bool_decide; [apply blind_raise|].
  apply blind_bind; [apply blind_set_users | intros _; apply blind_ret].
Qed.

Lemma blind_delete_user (email : string) (user : CurrentUser.t) :
  capacity_blind (delete_user email user).
Proof.
  unfold delete_user. apply blind_gets_users; intros us.
  destruct (us !! email) as [target|]; [|apply blind_raise].
  case_bool_decide; [apply blind_raise|].
  apply blind_bind; [apply blind_set_users | intros _; apply blind_ret].
Qed.

Lemma blind_list_users (user : CurrentUser.t) : capacity_blind (list_users user).
Proof. unfold list_users. apply blind_gets_users; intros us. apply blind_ret. Qed.

Lemma blind_signup (activity_name email : string) (user : CurrentUser.t) :
  capacity_blind (signup_for_activity activity_name email user).
Proof.
  intros cap st.
  destruct (activities st !! activity_name) as [activity|] eqn:Hact.
  2: { rewrite !signup_not_found; [done | done | by rewrite recap_lookup, Hact]. }
  assert (Hact' : activities (recap cap st) !! activity_name
                  = Some (with_max_participants activity (cap activity_name)))
    by (by rewrite recap_lookup, Hact).
  destruct (decide (may_act_for user email)) as [Hown|Hown].
  - destruct (decide (email ∈ Activity.participants activity)) as [Hin|Hin].
    + by rewrite (signup_already_enrolled _ _ _ _ _ Hact Hown Hin),
        (signup_already_enrolled _ _ _ _ _ Hact' Hown Hin).
    + rewrite (signup_success _ _ _ _ _ Hact Hown Hin),
        (signup_success _ _ _ _ _ Hact' Hown Hin).
      simpl fst. simpl snd. f_equal. apply recap_set_roster.
  - assert (CurrentUser.role user = "student" ∧ CurrentUser.email user ≠ email) as [Hr He].
    { unfold may_act_for in Hown.
      destruct (decide (CurrentUser.role user = "student")); [|tauto].
      destruct (decide (CurrentUser.email user = email)); tauto. }
    by rewrite (signup_forbidden _ _ _ _ _ Hact Hr He),
      (signup_forbidden _ _ _ _ _ Hact' Hr He).
Qed.

Lemma blind_unregister (activity_name email : string) (user : CurrentUser.t) :
  capacity_blind (unregister_from_activity activity_name email user).
Proof.
  intros cap st.
  destruct (activities st !! activity_name) as [activity|] eqn:Hact.
  2: { rewrite !unregister_not_found; [done | done | by rewrite recap_lookup, Hact]. }
  assert (Hact' : activities (recap cap st) !! activity_name
                  = Some (with_max_participants activity (cap activity_name)))
    by (by rewrite recap_lookup, Hact).
  destruct (decide (may_act_for user email)) as [Hown|Hown].
  - destruct (decide (email ∈ Activity.participants activity)) as [Hin|Hin].
    + rewrite (unregister_success _ _ _ _ _ Hact Hown Hin),
        (unregister_success _ _ _ _ _ Hact' Hown Hin).
      simpl fst. simpl snd. f_equal. apply recap_set_roster.
    + by rewrite (unregister_not_enrolled _ _ _ _ _ Hact Hown Hin),
        (unregister_not_enrolled _ _ _ _ _ Hact' Hown Hin).
  - assert (CurrentUser.role user = "student" ∧ CurrentUser.email user ≠ email) as [Hr He].
    { unfold may_act_for in Hown.
      destruct (decide (CurrentUser.role user = "student")); [|tauto].
      destruct (decide (CurrentUser.email user = email)); tauto. }
    by rewrite (unregister_forbidden _ _ _ _ _ Hact Hr He),
      (unregister_forbidden _ _ _ _ _ Hact' Hr He).
Qed.

(** C5. No capacity enforcement.  For an activity of the catalog, an
    email not on its roster and an acting user who passes the ownership
    test, signup returns and appends the email; the statement has no
    hypothesis on the size of the roster, and in particular the signup
    returns when the roster already holds [max_participants] entries or
    more, leaving a roster strictly larger than [max_participants].
    Moreover ["max_participants"] influences no operation: replacing the
    capacities of a store by arbitrary other ones changes neither the
    value returned or the exception raised by signup, unregister, the
    session lookup, the role check, login, logout, create_user,
    delete_user and list_users, nor their effect on the store.  (Only
    [get_activities], which hands out the catalog itself, shows the
    capacities.) *)
Theorem no_capacity_enforcement :
  (∀ (st : Store) (A S : string) (U : CurrentUser.t) (activity : Activity.t),
     activities st !! A = Some activity →
     S ∉ Activity.participants activity →
     CurrentUser.role U ≠ "student" ∨ CurrentUser.email U = S →
     signup_for_activity A S U st
     = (Returned (mkAck ("Signed up " +:+ S +:+ " for " +:+ A)),
        set_activities
          (<[A := Activity.with_participants activity
                    (Activity.participants activity ++ [S])]> (activities st)) st)
     ∧ (Activity.max_participants activity
        ≤ Z.of_nat (length (Activity.participants activity)) →
        Activity.max_participants activity
        < Z.of_nat (length (Activity.participants activity ++ [S]))))
  ∧ (∀ A S U, capacity_blind (signup_for_activity A S U))
  ∧ (∀ A S U, capacity_blind (unregister_from_activity A S U))
  ∧ (∀ session_token, capacity_blind (get_current_user session_token))
  ∧ (∀ roles session_token, capacity_blind (require_roles roles session_token))
  ∧ (∀ data session_token, capacity_blind (login data session_token))
  ∧ (∀ session_token, capacity_blind (logout session_token))
  ∧ (∀ data user, capacity_blind (create_user data user))
  ∧ (∀ email user, capacity_blind (delete_user email user))
  ∧ (∀ user, capacity_blind (list_users user)).
Proof.
  split.
  { intros st A S U activity Hact Hin Hown. split.
    - by apply signup_success.
    - rewrite length_app. simpl. lia. }
  split; [exact blind_signup|]. split; [exact blind_unregister|].
  split; [exact blind_get_current_user|]. split; [exact blind_require_roles|].
  split; [exact blind_login|]. split; [exact blind_logout|].
  split; [exact blind_create_user|]. split; [exact blind_delete_user|].
  exact blind_list_users.
Qed.

(** A Chess Club declared for two participants and holding two. *)
Lemma no_capacity_enforcement_witness :
  let st := recap (fun _ => 2) seed in
  let activity := Activity.mk "Learn strategies and compete in chess tournaments"
                    "Fridays, 3:30 PM - 5:00 PM" 2
                    ["michael@mergington.edu"; "daniel@mergington.edu"] in
  activities st !! "Chess Club" = Some activity
  ∧ ("emma@mergington.edu" ∉ Activity.participants activity)
  ∧ (CurrentUser.role teacher_user ≠ "student"
     ∨ CurrentUser.email teacher_user = "emma@mergington.edu")
  ∧ Activity.max_participants activity ≤ Z.of_nat (length (Activity.participants activity))
  ∧ (signup_for_activity "Chess Club" "emma@mergington.edu" teacher_user st).1
    = Returned (mkAck "Signed up emma@mergington.edu for Chess Club")
  ∧ Activity.max_participants activity
    < Z.of_nat (length (Activity.participants activity ++ ["emma@mergington.edu"])).
Proof.
  intros st activity.
  assert (H1 : activities st !! "Chess Club" = Some activity) by (vm_compute; reflexivity).
  assert (H2 : "emma@mergington.edu" ∉ Activity.participants activity)
    by (apply (bool_decide_unpack _); vm_compute; exact I).
  assert (H3 : CurrentUser.role teacher_user ≠ "student"
               ∨ CurrentUser.email teacher_user = "emma@mergington.edu")
    by (left; vm_compute; discriminate).
  assert (H4 : Activity.max_participants activity
               ≤ Z.of_nat (length (Activity.participants activity)))
    by (vm_compute; discriminate).
  split; [exact H1|]. split; [exact H2|]. split; [exact H3|]. split; [exact H4|].
  destruct (proj1 no_capacity_enforcement st "Chess Club" "emma@mergington.edu"
              teacher_user activity H1 H2 H3) as [Hrun Hover].
  split; [by rewrite Hrun | exact (Hover H4)].
Defined.

(** ** Sessions *)

Lemma set_sessions_same (st : Store) : set_sessions (sessions st) st = st.
Proof. by destruct st. Qed.

Section Login.
Variables (st : Store) (data : gmap string string) (session_token : string).

Lemma login_no_email :
  data !! "email" = None →
  login data session_token st = (Raised (mkHTTPException 401 "Invalid credentials"), st).
Proof. intros H. unfold login. run_handler. by rewrite H. Qed.

Lemma login_unknown_email (email : string) :
  data !! "email" = Some email → users st !! email = None →
  login data session_token st = (Raised (mkHTTPException 401 "Invalid credentials"), st).
Proof. intros H1 H2. unfold login. run_handler. by rewrite H1, H2. Qed.

Lemma login_wrong_password (email : string) (user : User.t) :
  data !! "email" = Some email → users st !! email = Some user →
  Some (User.password user) ≠ data !! "password" →
  login data session_token st = (Raised (mkHTTPException 401 "Invalid credentials"), st).
Proof.
  intros H1 H2 H3. unfold login. run_handler.
  by rewrite H1, H2, bool_decide_eq_true_2.
Qed.

Lemma login_success (email : string) (user : User.t) :
  data !! "email" = Some email → users st !! email = Some user →
  data !! "password" = Some (User.password user) →
  login data session_token st
  = (Returned (LoginOk.mk "Login successful" (User.role user) (User.name user),
               set_cookie "session_token" session_token true),
     set_sessions (<[session_token := email]> (sessions st)) st).
Proof.
  intros H1 H2 H3. unfold login. run_handler.
  rewrite H1, H2, bool_decide_eq_false_2; [done|]. rewrite H3. tauto.
Qed.
End Login.

(** C6. Login.  [login] raises 401 "Invalid credentials" exactly when the
    supplied email has no record in [users] (which includes a body without
    an email) or the password stored for it differs from the supplied one
    (which includes a body without a password); it raises nothing else,
    and a raise leaves the store as it was.  Otherwise it returns the
    role and name of the record, sets the session cookie to the fresh
    token, and the store differs only in [sessions], where the token now
    maps to the email: every other token maps as before, [users] and
    [activities] are unchanged, and when the token was not yet a session
    the session store has one entry more. *)
Theorem login_correct (st : Store) (data : gmap string string) (session_token : string) :
  let stored := data !! "email" ≫= (users st !!.) in
  let result := login data session_token st in
  ((stored = None
    ∨ ∃ user, stored = Some user ∧ Some (User.password user) ≠ data !! "password")
   ↔ result = (Raised (mkHTTPException 401 "Invalid credentials"), st))
  ∧ (∀ e, result.1 = Raised e → result = (Raised (mkHTTPException 401 "Invalid credentials"), st))
  ∧ (∀ email user,
       data !! "email" = Some email → users st !! email = Some user →
       data !! "password" = Some (User.password user) →
       result.1 = Returned (LoginOk.mk "Login successful" (User.role user) (User.name user),
                            set_cookie "session_token" session_token true)
       ∧ sessions result.2 !! session_token = Some email
       ∧ (∀ token, token ≠ session_token →
            sessions result.2 !! token = sessions st !! token)
       ∧ (sessions st !! session_token = None →
            size (sessions result.2) = S (size (sessions st)))
       ∧ users result.2 = users st
       ∧ activities result.2 = activities st).
Proof.
  intros stored result. subst stored result.
  destruct (data !! "email") as [email|] eqn:Hemail; simpl.
  2: { rewrite login_no_email by done.
       split; [split; [done | by left]|]. split; [done|]. intros ? ? [=]. }
  destruct (users st !! email) as [user|] eqn:Huser.
  2: { rewrite (login_unknown_email _ _ _ email) by done.
       split; [split; [done | by left]|]. split; [done|]. intros ? ? [= <-]. congruence. }
  destruct (decide (Some (User.password user) = data !! "password")) as [Hpw|Hpw].
  - rewrite (login_success _ _ _ email user) by done. simpl.
    split; [|split; [intros ? [=]|]].
    + split; [|intros [=]].
      intros [[=] | (user' & [= <-] & Hne)]. done.
    + intros ? ? [= <-]. rewrite Huser. intros [= <-] _.
      split; [done|]. split; [apply lookup_insert_eq|].
      split; [intros token Hne; by apply lookup_insert_ne|].
      split; [|done]. intros Hfresh. by apply map_size_insert_None.
  - rewrite (login_wrong_password _ _ _ email user) by done. simpl.
    split; [split; [done|]|].
    + intros _. right. by exists user.
    + split; [done|]. intros ? ? [= <-]. rewrite Huser. intros [= <-] Hpw'.
      by rewrite Hpw' in Hpw.
Qed.

Lemma login_correct_witness :
  let data := <["email" := "admin@mergington.edu"]> (<["password" := "adminpass"]> ∅)
              : gmap string string in
  let user := User.mk "adminpass" "admin" "Admin User" in
  let result := login data "ZrNWmUO1sDm4J0ysKxdEkg" seed in
  data !! "email" = Some "admin@mergington.edu"
  ∧ users seed !! "admin@mergington.edu" = Some user
  ∧ data !! "password" = Some (User.password user)
  ∧ result.1 = Returned (LoginOk.mk "Login successful" "admin" "Admin User",
                         set_cookie "session_token" "ZrNWmUO1sDm4J0ysKxdEkg" true)
  ∧ sessions result.2 !! "ZrNWmUO1sDm4J0ysKxdEkg" = Some "admin@mergington.edu".
Proof.
  intros data user result.
  assert (H1 : data !! "email" = Some "admin@mergington.edu") by (vm_compute; reflexivity).
  assert (H2 : users seed !! "admin@mergington.edu" = Some user) by (vm_compute; reflexivity).
  assert (H3 : data !! "password" = Some (User.password user)) by (vm_compute; reflexivity).
  split; [exact H1|]. split; [exact H2|]. split; [exact H3|].
  destruct (proj2 (proj2 (login_correct seed data "ZrNWmUO1sDm4J0ysKxdEkg"))
              "admin@mergington.edu" user H1 H2 H3) as (Hr & Hs & _).
  split; [exact Hr | exact Hs].
Defined.

Section Logout.
Variable st : Store.

Lemma logout_no_cookie :
  logout None st = (Returned (mkAck "Logged out", delete_cookie "session_token"), st).
Proof. reflexivity. Qed.

Lemma logout_absent (token : string) :
  sessions st !! token = None →
  logout (Some token) st = (Returned (mkAck "Logged out", delete_cookie "session_token"), st).
Proof.
  intros H. unfold logout. run_handler.
  rewrite bool_decide_eq_false_2; [done|]. rewrite H. by intros [? [=]].
Qed.

Lemma logout_present (token : string) :
  is_Some (sessions st !! token) →
  logout (Some token) st
  = (Returned (mkAck "Logged out", delete_cookie "session_token"),
     set_sessions (delete token (sessions st)) st).
Proof. intros H. unfold logout. run_handler. by rewrite bool_decide_eq_true_2. Qed.

Lemma logout_any (token : string) :
  logout (Some token) st
  = (Returned (mkAck "Logged out", delete_cookie "session_token"),
     set_sessions (delete token (sessions st)) st).
Proof.
  destruct (sessions st !! token) eqn:H.
  - by apply logout_present.
  - rewrite logout_absent by done. by rewrite delete_id, set_sessions_same.
Qed.
End Logout.

Lemma get_current_user_no_session (st : Store) (session_token : option string) :
  (∀ token, session_token = Some token → sessions st !! token = None) →
  get_current_user session_token st = (Raised (mkHTTPException 401 "Not authenticated"), st).
Proof.
  intros H. unfold get_current_user. run_handler.
  destruct session_token as [token|]; simpl; [|done].
  case_bool_decide; [done|]. by rewrite H.
Qed.

(** C7. Logout.  [logout] never raises.  With a cookie it leaves the
    session store with that token deleted and touches nothing else; with a
    token that is not a session, or without a cookie, it leaves the store
    as it was.  Logging out twice is logging out once.  On the store left
    by [logout(token)], the session lookup [get_current_user] with the
    same token raises 401 "Not authenticated". *)
Theorem logout_semantics (st : Store) (session_token : option string) :
  let st' := (logout session_token st).2 in
  (logout session_token st).1
  = Returned (mkAck "Logged out", delete_cookie "session_token")
  ∧ (∀ token, session_token = Some token →
       sessions st' = delete token (sessions st)
       ∧ sessions st' !! token = None
       ∧ ∀ other, other ≠ token → sessions st' !! other = sessions st !! other)
  ∧ (session_token = None
     ∨ (∃ token, session_token = Some token ∧ sessions st !! token = None) →
     st' = st)
  ∧ users st' = users st
  ∧ activities st' = activities st
  ∧ logout session_token st'
    = (Returned (mkAck "Logged out", delete_cookie "session_token"), st')
  ∧ get_current_user session_token st'
    = (Raised (mkHTTPException 401 "Not authenticated"), st').
Proof.
  intros st'. subst st'.
  destruct session_token as [token|].
  - rewrite logout_any. simpl.
    split; [done|]. split.
    { intros ? [= <-]. split; [done|]. split; [apply lookup_delete_eq|].
      intros other Hne. by apply lookup_delete_ne. }
    split.
    { intros [[=] | (? & [= <-] & Habs)]. by rewrite delete_id, set_sessions_same. }
    split; [done|]. split; [done|]. split.
    + rewrite logout_any. simpl. by rewrite delete_delete_eq.
    + apply get_current_user_no_session. intros ? [= <-]. simpl. apply lookup_delete_eq.
  - rewrite logout_no_cookie. simpl.
    split; [done|]. split; [intros ? [=]|]. split; [done|].
    split; [done|]. split; [done|]. split; [done|].
    by apply get_current_user_no_session.
Qed.

Lemma logout_semantics_witness :
  let data := <["email" := "admin@mergington.edu"]> (<["password" := "adminpass"]> ∅)
              : gmap string string in
  let token := "ZrNWmUO1sDm4J0ysKxdEkg" in
  let st1 := (login data token seed).2 in
  let st2 := (logout (Some token) st1).2 in
  (get_current_user (Some token) st1).1 = Returned admin_user
  ∧ Some token = Some token
  ∧ sessions st2 !! token = None
  ∧ st2 = seed
  ∧ get_current_user (Some token) st2
    = (Raised (mkHTTPException 401 "Not authenticated"), st2).
Proof.
  intros data token st1 st2.
  split; [vm_compute; reflexivity|].
  assert (H1 : Some token = Some token) by reflexivity.
  split; [exact H1|].
  destruct (logout_semantics st1 (Some token)) as (_ & Hdel & _ & _ & _ & _ & Hget).
  split; [exact (proj1 (proj2 (Hdel token H1)))|].
  split; [vm_compute; reflexivity | exact Hget].
Defined.

(** ** Dependencies *)

Lemma get_current_user_store (st : Store) (session_token : option string) :
  (get_current_user session_token st).2 = st.
Proof.
  unfold get_current_user. run_handler.
  destruct (nonempty session_token) as [token|]; [|done].
  destruct (sessions st !! token) as [email|]; [|done].
  by destruct (users st !! email).
Qed.

(** A resolved user is a record of [users], found through a session. *)
Lemma get_current_user_returned_inv (st : Store) (session_token : option string)
    (U : CurrentUser.t) :
  (get_current_user session_token st).1 = Returned U →
  ∃ token user,
    session_token = Some token
    ∧ sessions st !! token = Some (CurrentUser.email U)
    ∧ users st !! CurrentUser.email U = Some user
    ∧ U = CurrentUser.mk (CurrentUser.email U) (User.password user) (User.role user)
            (User.name user).
Proof.
  unfold get_current_user. run_handler.
  destruct session_token as [token|]; simpl; [|done].
  case_bool_decide; [done|].
  destruct (sessions st !! token) as [email|] eqn:Hs; [|done].
  destruct (users st !! email) as [user|] eqn:Hu; [|done].
  simpl. intros [= <-]. exists token, user. simpl. by rewrite Hu.
Qed.

Lemma get_current_user_run (st : Store) (session_token : option string) (U : CurrentUser.t) :
  (get_current_user session_token st).1 = Returned U →
  get_current_user session_token st = (Returned U, st).
Proof.
  intros H. pose proof (get_current_user_store st session_token) as Hst.
  destruct (get_current_user session_token st) as [r st']. simpl in *. congruence.
Qed.

Lemma require_roles_pass (st : Store) (roles : list string) (session_token : option string)
    (U : CurrentUser.t) :
  (get_current_user session_token st).1 = Returned U →
  CurrentUser.role U ∈ roles →
  require_roles roles session_token st = (Returned U, st).
Proof.
  intros HU Hrole. unfold require_roles, bind.
  rewrite (get_current_user_run _ _ _ HU).
  rewrite bool_decide_eq_false_2; [done | tauto].
Qed.

Lemma require_roles_refuse (st : Store) (roles : list string) (session_token : option string)
    (U : CurrentUser.t) :
  (get_current_user session_token st).1 = Returned U →
  CurrentUser.role U ∉ roles →
  require_roles roles session_token st
  = (Raised (mkHTTPException 403 "Insufficient permissions"), st).
Proof.
  intros HU Hrole. unfold require_roles, bind.
  rewrite (get_current_user_run _ _ _ HU).
  by rewrite bool_decide_eq_true_2.
Qed.

Lemma Depends_pass {A} (dependency : option string -> Handler CurrentUser.t)
    (endpoint : CurrentUser.t -> Handler A) (session_token : option string)
    (st : Store) (U : CurrentUser.t) :
  dependency session_token st = (Returned U, st) →
  Depends dependency endpoint session_token st = endpoint U st.
Proof. intros H. unfold Depends, bind. by rewrite H. Qed.

(** ** Accounts *)

Lemma set_users_same (st : Store) : set_users (users st) st = st.
Proof. by destruct st. Qed.

Section DeleteUser.
Variables (st : Store) (email : string) (user : CurrentUser.t).

Lemma delete_user_not_found :
  users st !! email = None →
  delete_user email user st = (Raised (mkHTTPException 404 "User not found"), st).
Proof. intros H. unfold delete_user. run_handler. by rewrite H. Qed.

Lemma delete_user_admin (target : User.t) :
  users st !! email = Some target → User.role target = "admin" →
  delete_user email user st = (Raised (mkHTTPException 403 "Cannot delete another admin"), st).
Proof.
  intros H Hr. unfold delete_user. run_handler.
  by rewrite H, bool_decide_eq_true_2.
Qed.

Lemma delete_user_success (target : User.t) :
  users st !! email = Some target → User.role target ≠ "admin" →
  delete_user email user st
  = (Returned (mkAck ("User " +:+ email +:+ " deleted")),
     set_users (delete email (users st)) st).
Proof.
  intros H Hr. unfold delete_user. run_handler.
  by rewrite H, bool_decide_eq_false_2.
Qed.

Lemma delete_user_raised_inv (e : HTTPException) (st' : Store) :
  delete_user email user st = (Raised e, st') → st' = st.
Proof.
  unfold delete_user. run_handler.
  destruct (users st !! email) as [target|]; [|congruence].
  case_bool_decide; congruence.
Qed.
End DeleteUser.

(** C8. delete_user.  For a request whose session resolves to a user of
    role ["admin"] (the role gate [require_roles(["admin"])] then lets it
    through): an email without a record is answered 404; an email whose
    record has role ["admin"] is answered 403, and this is in particular
    the answer when the acting admin names their own email; any other
    record is removed: afterwards [users] has no record for that email,
    every other email has the record it had, and sessions and activities
    are as they were.  Every raise leaves the store as it was. *)
Theorem delete_user_semantics (st : Store) (session_token : option string)
    (U : CurrentUser.t) (email : string) :
  (get_current_user session_token st).1 = Returned U →
  CurrentUser.role U = "admin" →
  let result := route_delete_user email session_token st in
  (users st !! email = None →
   result = (Raised (mkHTTPException 404 "User not found"), st))
  ∧ (∀ target, users st !! email = Some target → User.role target = "admin" →
     result = (Raised (mkHTTPException 403 "Cannot delete another admin"), st))
  ∧ (∀ target, users st !! email = Some target → User.role target ≠ "admin" →
     result.1 = Returned (mkAck ("User " +:+ email +:+ " deleted"))
     ∧ users result.2 = delete email (users st)
     ∧ users result.2 !! email = None
     ∧ (∀ other, other ≠ email → users result.2 !! other = users st !! other)
     ∧ sessions result.2 = sessions st
     ∧ activities result.2 = activities st
     ∧ result = (Returned (mkAck ("User " +:+ email +:+ " deleted")),
                 set_users (delete email (users st)) st))
  ∧ (∀ e st', result = (Raised e, st') → st' = st)
  ∧ route_delete_user (CurrentUser.email U) session_token st
    = (Raised (mkHTTPException 403 "Cannot delete another admin"), st).
Proof.
  intros HU Hadmin result. subst result.
  assert (Hgate : require_roles ["admin"] session_token st = (Returned U, st)).
  { apply require_roles_pass; [done|]. rewrite Hadmin. apply list_elem_of_here. }
  unfold route_delete_user. rewrite !(Depends_pass _ _ _ _ _ Hgate).
  split; [apply delete_user_not_found|].
  split; [apply delete_user_admin|].
  split.
  { intros target Htarget Hrole.
    rewrite (delete_user_success _ _ _ target Htarget Hrole). simpl.
    split; [done|]. split; [done|]. split; [apply lookup_delete_eq|].
    split; [|done]. intros other Hne. by apply lookup_delete_ne. }
  split; [intros e st'; apply delete_user_raised_inv|].
  destruct (get_current_user_returned_inv _ _ _ HU) as (token & user & _ & _ & Hrec & HUeq).
  apply delete_user_admin with user; [done|].
  rewrite HUeq in Hadmin. exact Hadmin.
Qed.

Lemma delete_user_semantics_witness :
  let data := <["email" := "admin@mergington.edu"]> (<["password" := "adminpass"]> ∅)
              : gmap string string in
  let token := "ZrNWmUO1sDm4J0ysKxdEkg" in
  let st := (login data token seed).2 in
  let result := route_delete_user "student@mergington.edu" (Some token) st in
  (get_current_user (Some token) st).1 = Returned admin_user
  ∧ CurrentUser.role admin_user = "admin"
  ∧ users st !! "nobody@mergington.edu" = None
  ∧ route_delete_user "nobody@mergington.edu" (Some token) st
    = (Raised (mkHTTPException 404 "User not found"), st)
  ∧ users st !! "student@mergington.edu" = Some (User.mk "studpass" "student" "Student S.")
  ∧ result.1 = Returned (mkAck ("User " +:+ "student@mergington.edu" +:+ " deleted"))
  ∧ users result.2 !! "student@mergington.edu" = None
  ∧ users result.2 !! "teacher@mergington.edu" = users st !! "teacher@mergington.edu"
  ∧ route_delete_user "admin@mergington.edu" (Some token) st
    = (Raised (mkHTTPException 403 "Cannot delete another admin"), st).
Proof.
  intros data token st result.
  assert (H1 : (get_current_user (Some token) st).1 = Returned admin_user)
    by (vm_compute; reflexivity).
  assert (H2 : CurrentUser.role admin_user = "admin") by reflexivity.
  assert (H3 : users st !! "nobody@mergington.edu" = None) by (vm_compute; reflexivity).
  assert (H4 : users st !! "student@mergington.edu"
               = Some (User.mk "studpass" "student" "Student S."))
    by (vm_compute; reflexivity).
  assert (H5 : User.role (User.mk "studpass" "student" "Student S.") ≠ "admin")
    by (vm_compute; discriminate).
  assert (H6 : "teacher@mergington.edu" ≠ "student@mergington.edu")
    by (vm_compute; discriminate).
  split; [exact H1|]. split; [exact H2|]. split; [exact H3|].
  split.
  { exact (proj1 (delete_user_semantics st (Some token) admin_user
                    "nobody@mergington.edu" H1 H2) H3). }
  split; [exact H4|].
  destruct (proj1 (proj2 (proj2 (delete_user_semantics st (Some token) admin_user
                                   "student@mergington.edu" H1 H2))) _ H4 H5)
    as (Hr & _ & Hgone & Hothers & _).
  split; [exact Hr|]. split; [exact Hgone|].
  split; [exact (Hothers "teacher@mergington.edu" H6)|].
  exact (proj2 (proj2 (proj2 (proj2 (delete_user_semantics st (Some token) admin_user
                                       "student@mergington.edu" H1 H2))))).
Defined.

Lemma sanitized_items (info : User.t) :
  filter (fun kv : string * string => kv.1 ≠ "password") (User.items info)
  = [("role", User.role info); ("name", User.name info)].
Proof. reflexivity. Qed.

(** C9. list_users.  For every store and every request whose session
    resolves to a user of role ["admin"] or ["staff"], [list_users]
    returns, without touching the store, a mapping with exactly the
    emails of [users] as keys; the entry of each email consists of the
    ["role"] and ["name"] items of its record, and no entry has a
    ["password"] key. *)
Theorem list_users_sanitized (st : Store) (session_token : option string)
    (U : CurrentUser.t) :
  (get_current_user session_token st).1 = Returned U →
  CurrentUser.role U = "admin" ∨ CurrentUser.role U = "staff" →
  ∃ listing,
    route_list_users session_token st = (Returned listing, st)
    ∧ dom listing = dom (users st)
    ∧ (∀ email info, users st !! email = Some info →
         listing !! email = Some [("role", User.role info); ("name", User.name info)])
    ∧ (∀ email entry, listing !! email = Some entry → "password" ∉ entry.*1).
Proof.
  intros HU Hrole.
  assert (Hgate : require_roles ["admin"; "staff"] session_token st = (Returned U, st)).
  { apply require_roles_pass; [done|].
    destruct Hrole as [-> | ->]; [apply list_elem_of_here|].
    apply list_elem_of_further, list_elem_of_here. }
  eexists. unfold route_list_users. rewrite (Depends_pass _ _ _ _ _ Hgate).
  unfold list_users. run_handler. split; [reflexivity|].
  split; [apply dom_fmap_L|]. split.
  - intros email info Hinfo. by rewrite lookup_fmap, Hinfo.
  - intros email entry. rewrite lookup_fmap.
    destruct (users st !! email) as [info|]; [|done].
    simpl. intros [= <-]. rewrite sanitized_items. simpl.
    intros Hin. repeat (apply elem_of_cons in Hin as [[=] | Hin]).
    by apply elem_of_nil in Hin.
Qed.

Lemma list_users_sanitized_witness :
  let data := <["email" := "teacher@mergington.edu"]> (<["password" := "teachpass"]> ∅)
              : gmap string string in
  let token := "ZrNWmUO1sDm4J0ysKxdEkg" in
  let st := (login data token seed).2 in
  (get_current_user (Some token) st).1 = Returned teacher_user
  ∧ (CurrentUser.role teacher_user = "admin" ∨ CurrentUser.role teacher_user = "staff")
  ∧ ∃ listing,
      route_list_users (Some token) st = (Returned listing, st)
      ∧ listing !! "admin@mergington.edu" = Some [("role", "admin"); ("name", "Admin User")].
Proof.
  intros data token st.
  assert (H1 : (get_current_user (Some token) st).1 = Returned teacher_user)
    by (vm_compute; reflexivity).
  assert (H2 : CurrentUser.role teacher_user = "admin" ∨ CurrentUser.role teacher_user = "staff")
    by (right; reflexivity).
  split; [exact H1|]. split; [exact H2|].
  destruct (list_users_sanitized st (Some token) teacher_user H1 H2)
    as (listing & Hrun & _ & Hentry & _).
  exists listing. split; [exact Hrun|].
  apply (Hentry "admin@mergington.edu" (User.mk "adminpass" "admin" "Admin User")).
  vm_compute. reflexivity.
Defined.

Lemma nonempty_Some (s : string) : s ≠ "" → nonempty (Some s) = Some s.
Proof. intros H. unfold nonempty. by rewrite bool_decide_eq_false_2. Qed.

Lemma create_user_success (st : Store) (data : gmap string string) (user : CurrentUser.t)
    (email password role name : string) :
  data !! "email" = Some email → data !! "password" = Some password →
  data !! "role" = Some role → data !! "name" = Some name →
  email ≠ "" → password ≠ "" → role ≠ "" → name ≠ "" →
  users st !! email = None →
  role ∈ ["admin"; "staff"; "student"] →
  create_user data user st
  = (Returned (mkAck ("User " +:+ email +:+ " created with role " +:+ role)),
     set_users (<[email := User.mk password role name]> (users st)) st).
Proof.
  intros He Hp Hr Hn He' Hp' Hr' Hn' Hfree Hrole.
  unfold create_user. rewrite He, Hp, Hr, Hn, !nonempty_Some by done.
  run_handler.
  rewrite bool_decide_eq_false_2.
  2: { rewrite Hfree. by intros [? [=]]. }
  rewrite bool_decide_eq_false_2; [done | tauto].
Qed.

(** C10. A staff user can create an admin.  For a request whose session
    resolves to a user of role ["staff"], a body with a non-empty email
    that has no record yet, a non-empty password, a non-empty name and
    role ["admin"] passes the role gate [require_roles(["admin",
    "staff"])] and every test of [create_user]: the handler returns its
    acknowledgement and [users] gains a record of role ["admin"] under
    that email.  No test compares the granted role with the role of the
    acting user. *)
Theorem staff_creates_admin (st : Store) (session_token : option string)
    (U : CurrentUser.t) (data : gmap string string) (email password name : string) :
  (get_current_user session_token st).1 = Returned U →
  CurrentUser.role U = "staff" →
  data !! "email" = Some email → data !! "password" = Some password →
  data !! "role" = Some "admin" → data !! "name" = Some name →
  email ≠ "" → password ≠ "" → name ≠ "" →
  users st !! email = None →
  let result := route_create_user data session_token st in
  result.1 = Returned (mkAck ("User " +:+ email +:+ " created with role admin"))
  ∧ users result.2 = <[email := User.mk password "admin" name]> (users st)
  ∧ users result.2 !! email = Some (User.mk password "admin" name)
  ∧ sessions result.2 = sessions st
  ∧ activities result.2 = activities st.
Proof.
  intros HU Hstaff He Hp Hr Hn He' Hp' Hn' Hfree result. subst result.
  assert (Hgate : require_roles ["admin"; "staff"] session_token st = (Returned U, st)).
  { apply require_roles_pass; [done|]. rewrite Hstaff.
    apply list_elem_of_further, list_elem_of_here. }
  unfold route_create_user. rewrite (Depends_pass _ _ _ _ _ Hgate).
  rewrite (create_user_success st data U email password "admin" name);
    try done; [|apply list_elem_of_here].
  simpl. split; [done|]. split; [done|]. split; [apply lookup_insert_eq | done].
Qed.

Lemma staff_creates_admin_witness :
  let creds := <["email" := "teacher@mergington.edu"]> (<["password" := "teachpass"]> ∅)
               : gmap string string in
  let token := "ZrNWmUO1sDm4J0ysKxdEkg" in
  let st := (login creds token seed).2 in
  let data := <["email" := "root@mergington.edu"]> (<["password" := "hunter2"]>
              (<["role" := "admin"]> (<["name" := "Root"]> ∅))) : gmap string string in
  let result := route_create_user data (Some token) st in
  (get_current_user (Some token) st).1 = Returned teacher_user
  ∧ CurrentUser.role teacher_user = "staff"
  ∧ users st !! "root@mergington.edu" = None
  ∧ result.1 = Returned (mkAck "User root@mergington.edu created with role admin")
  ∧ users result.2 !! "root@mergington.edu" = Some (User.mk "hunter2" "admin" "Root").
Proof.
  intros creds token st data result.
  assert (H1 : (get_current_user (Some token) st).1 = Returned teacher_user)
    by (vm_compute; reflexivity).
  assert (H2 : CurrentUser.role teacher_user = "staff") by reflexivity.
  assert (H3 : users st !! "root@mergington.edu" = None) by (vm_compute; reflexivity).
  assert (D1 : data !! "email" = Some "root@mergington.edu") by (vm_compute; reflexivity).
  assert (D2 : data !! "password" = Some "hunter2") by (vm_compute; reflexivity).
  assert (D3 : data !! "role" = Some "admin") by (vm_compute; reflexivity).
  assert (D4 : data !! "name" = Some "Root") by (vm_compute; reflexivity).
  assert (N1 : "root@mergington.edu" ≠ "") by discriminate.
  assert (N2 : "hunter2" ≠ "") by discriminate.
  assert (N3 : "Root" ≠ "") by discriminate.
  split; [exact H1|]. split; [exact H2|]. split; [exact H3|].
  destruct (staff_creates_admin st (Some token) teacher_user data
              "root@mergington.edu" "hunter2" "Root" H1 H2 D1 D2 D3 D4 N1 N2 N3 H3)
    as (Hr & _ & Hl & _).
  split; [exact Hr | exact Hl].
Defined.

(** * Further properties of the handlers *)

(** ** Rosters under [list.remove] *)

Lemma remove_middle (x : string) (l1 l2 : list string) :
  x ∉ l1 → remove x (l1 ++ x :: l2) = (l1 ++ l2)%list.
Proof.
  induction l1 as [|y l1 IH]; intros Hx; simpl.
  - by rewrite bool_decide_eq_true_2.
  - apply not_elem_of_cons in Hx as [Hne Hl].
    rewrite bool_decide_eq_false_2 by congruence. by rewrite IH.
Qed.

Lemma remove_subset (x y : string) (l : list string) : y ∈ remove x l → y ∈ l.
Proof.
  induction l as [|z l IH]; simpl; [done|].
  case_bool_decide; intros Hy.
  - by apply list_elem_of_further.
  - apply elem_of_cons in Hy as [-> | Hy]; [apply list_elem_of_here|].
    apply list_elem_of_further. auto.
Qed.

Lemma remove_NoDup (x : string) (l : list string) : NoDup l → NoDup (remove x l).
Proof.
  induction 1 as [|y l Hy Hl IH]; simpl; [constructor|].
  case_bool_decide; [done|].
  constructor; [|done]. intros Hin. by apply Hy, remove_subset with x.
Qed.

Lemma remove_NoDup_gone (x : string) (l : list string) : NoDup l → x ∉ remove x l.
Proof.
  induction 1 as [|y l Hy Hl IH]; simpl; [apply not_elem_of_nil|].
  case_bool_decide; [by subst|].
  apply not_elem_of_cons. split; [congruence | done].
Qed.

Lemma append_NoDup (x : string) (l : list string) : NoDup l → x ∉ l → NoDup (l ++ [x]).
Proof.
  intros Hl Hx. apply NoDup_app. split; [done|]. split.
  - intros y Hy Hin. apply list_elem_of_singleton in Hin. by subst.
  - apply NoDup_singleton.
Qed.

(** ** Unregistering *)

Lemma unregister_raised_inv (st st' : Store) (activity_name email : string)
    (user : CurrentUser.t) (e : HTTPException) :
  unregister_from_activity activity_name email user st = (Raised e, st') → st' = st.
Proof.
  unfold unregister_from_activity. run_handler.
  destruct (activities st !! activity_name) as [activity|]; [|congruence].
  destruct (_ && _); [congruence|].
  case_bool_decide; congruence.
Qed.

Lemma unregister_returned_inv (st st' : Store) (activity_name email : string)
    (user : CurrentUser.t) (ack : Ack) :
  unregister_from_activity activity_name email user st = (Returned ack, st') →
  ∃ activity,
    activities st !! activity_name = Some activity
    ∧ may_act_for user email
    ∧ email ∈ Activity.participants activity.
Proof.
  intros Hrun.
  destruct (activities st !! activity_name) as [activity|] eqn:Hact.
  2: { by rewrite unregister_not_found in Hrun. }
  exists activity. split; [done|].
  destruct (decide (may_act_for user email)) as [Hown|Hown].
  - split; [done|].
    destruct (decide (email ∈ Activity.participants activity)) as [Hin|Hin]; [done|].
    by rewrite (unregister_not_enrolled _ _ _ _ _ Hact Hown Hin) in Hrun.
  - assert (CurrentUser.role user = "student" ∧ CurrentUser.email user ≠ email) as [Hr He].
    { unfold may_act_for in Hown.
      destruct (decide (CurrentUser.role user = "student")); [|tauto].
      destruct (decide (CurrentUser.email user = email)); tauto. }
    by rewrite (unregister_forbidden _ _ _ _ _ Hact Hr He) in Hrun.
Qed.

(** X1. Unregister failures, in order.  An activity name absent from the
    catalog is answered 404; on a known activity a student acting for
    another email is answered 403 whether or not that email is enrolled;
    past the ownership test an email that is not on the roster is answered
    400 "not signed up".  When the roster lists no email twice, the same
    unregister repeated after one that returned is answered 400.  Every
    unregister that raises leaves the store as it was. *)
Theorem unregister_failure_precedence (st : Store) (A S : string) (U : CurrentUser.t) :
  (activities st !! A = None →
   unregister_from_activity A S U st
   = (Raised (mkHTTPException 404 "Activity not found"), st))
  ∧ (is_Some (activities st !! A) →
     CurrentUser.role U = "student" → CurrentUser.email U ≠ S →
     unregister_from_activity A S U st
     = (Raised (mkHTTPException 403 "Students can only unregister themselves"), st))
  ∧ (∀ activity, activities st !! A = Some activity →
     CurrentUser.role U ≠ "student" ∨ CurrentUser.email U = S →
     S ∉ Activity.participants activity →
     unregister_from_activity A S U st
     = (Raised (mkHTTPException 400 "Student is not signed up for this activity"), st))
  ∧ (∀ activity ack st1, activities st !! A = Some activity →
     NoDup (Activity.participants activity) →
     unregister_from_activity A S U st = (Returned ack, st1) →
     unregister_from_activity A S U st1
     = (Raised (mkHTTPException 400 "Student is not signed up for this activity"), st1))
  ∧ (∀ e st', unregister_from_activity A S U st = (Raised e, st') → st' = st).
Proof.
  split; [apply unregister_not_found|].
  split; [intros [activity Hact]; by apply unregister_forbidden with activity|].
  split; [intros activity Hact Hown Hin; by apply unregister_not_enrolled with activity|].
  split; [|intros e st'; apply unregister_raised_inv].
  intros activity ack st1 Hact Hnd Hrun.
  destruct (unregister_returned_inv _ _ _ _ _ _ Hrun) as (activity' & Hact' & Hown & Hin).
  rewrite Hact in Hact'. injection Hact' as <-.
  rewrite (unregister_success _ _ _ _ _ Hact Hown Hin) in Hrun.
  injection Hrun as _ <-.
  eapply unregister_not_enrolled; [simpl; apply lookup_insert_eq | done |].
  simpl. by apply remove_NoDup_gone.
Qed.

Lemma unregister_failure_precedence_witness :
  let A := "Chess Club" in
  let S := "daniel@mergington.edu" in
  let activity := Activity.mk "Learn strategies and compete in chess tournaments"
                    "Fridays, 3:30 PM - 5:00 PM" 12
                    ["michael@mergington.edu"; "daniel@mergington.edu"] in
  let st1 := (unregister_from_activity A S teacher_user seed).2 in
  activities seed !! A = Some activity
  ∧ NoDup (Activity.participants activity)
  ∧ unregister_from_activity A S teacher_user seed
    = (Returned (mkAck "Unregistered daniel@mergington.edu from Chess Club"), st1)
  ∧ unregister_from_activity A S teacher_user st1
    = (Raised (mkHTTPException 400 "Student is not signed up for this activity"), st1).
Proof.
  intros A S activity st1.
  assert (H1 : activities seed !! A = Some activity) by (vm_compute; reflexivity).
  assert (H2 : NoDup (Activity.participants activity))
    by (apply (bool_decide_unpack _); vm_compute; exact I).
  assert (H3 : unregister_from_activity A S teacher_user seed
               = (Returned (mkAck "Unregistered daniel@mergington.edu from Chess Club"), st1))
    by (vm_compute; reflexivity).
  split; [exact H1|]. split; [exact H2|]. split; [exact H3|].
  exact (proj1 (proj2 (proj2 (proj2 (unregister_failure_precedence seed A S teacher_user))))
           activity _ st1 H1 H2 H3).
Defined.

(** X2. Unregister removes the first occurrence only.  When the roster is
    [l1 ++ S :: l2] with [S] not in [l1], an authorised unregister of [S]
    returns, and the roster stored for the activity afterwards is
    [l1 ++ l2]: the order of the others is kept and a later duplicate of
    [S], were there one, stays.  The other fields of the activity, the
    other activities, the accounts and the sessions are as before. *)
Theorem unregister_removes_first (st : Store) (A S : string) (U : CurrentUser.t)
    (activity : Activity.t) (l1 l2 : list string) :
  activities st !! A = Some activity →
  Activity.participants activity = (l1 ++ S :: l2)%list →
  S ∉ l1 →
  CurrentUser.role U ≠ "student" ∨ CurrentUser.email U = S →
  let result := unregister_from_activity A S U st in
  result.1 = Returned (mkAck ("Unregistered " +:+ S +:+ " from " +:+ A))
  ∧ (∃ activity',
       activities result.2 !! A = Some activity'
       ∧ Activity.participants activity' = (l1 ++ l2)%list
       ∧ Activity.description activity' = Activity.description activity
       ∧ Activity.schedule activity' = Activity.schedule activity
       ∧ Activity.max_participants activity' = Activity.max_participants activity)
  ∧ (∀ B, B ≠ A → activities result.2 !! B = activities st !! B)
  ∧ users result.2 = users st
  ∧ sessions result.2 = sessions st.
Proof.
  intros Hact Hroster Hl1 Hown result. subst result.
  rewrite (unregister_success _ _ _ _ _ Hact Hown).
  2: { rewrite Hroster. apply elem_of_app. right. apply list_elem_of_here. }
  rewrite Hroster, remove_middle by done. simpl.
  split; [done|]. split.
  { eexists. split; [apply lookup_insert_eq | done]. }
  split; [|done]. intros B HB. by rewrite lookup_insert_ne.
Qed.

Lemma unregister_removes_first_witness :
  let activity := Activity.mk "Learn strategies and compete in chess tournaments"
                    "Fridays, 3:30 PM - 5:00 PM" 12
                    ["michael@mergington.edu"; "daniel@mergington.edu";
                     "emma@mergington.edu"; "daniel@mergington.edu"] in
  let st := set_activities (<["Chess Club" := activity]> (activities seed)) seed in
  let l1 := ["michael@mergington.edu"] in
  let l2 := ["emma@mergington.edu"; "daniel@mergington.edu"] in
  let result := unregister_from_activity "Chess Club" "daniel@mergington.edu" admin_user st in
  activities st !! "Chess Club" = Some activity
  ∧ Activity.participants activity = (l1 ++ "daniel@mergington.edu" :: l2)%list
  ∧ ("daniel@mergington.edu" ∉ l1)
  ∧ (CurrentUser.role admin_user ≠ "student"
     ∨ CurrentUser.email admin_user = "daniel@mergington.edu")
  ∧ result.1 = Returned (mkAck ("Unregistered " +:+ "daniel@mergington.edu" +:+ " from "
                                +:+ "Chess Club"))
  ∧ ∃ activity',
      activities result.2 !! "Chess Club" = Some activity'
      ∧ Activity.participants activity'
        = ["michael@mergington.edu"; "emma@mergington.edu"; "daniel@mergington.edu"].
Proof.
  intros activity st l1 l2 result.
  assert (H1 : activities st !! "Chess Club" = Some activity) by (vm_compute; reflexivity).
  assert (H2 : Activity.participants activity = (l1 ++ "daniel@mergington.edu" :: l2)%list)
    by reflexivity.
  assert (H3 : "daniel@mergington.edu" ∉ l1)
    by (apply (bool_decide_unpack _); vm_compute; exact I).
  assert (H4 : CurrentUser.role admin_user ≠ "student"
               ∨ CurrentUser.email admin_user = "daniel@mergington.edu")
    by (left; vm_compute; discriminate).
  split; [exact H1|]. split; [exact H2|]. split; [exact H3|]. split; [exact H4|].
  destruct (unregister_removes_first st "Chess Club" "daniel@mergington.edu" admin_user
              activity l1 l2 H1 H2 H3 H4) as (Hr & (activity' & Hl & Hp & _) & _).
  split; [exact Hr|]. exists activity'. split; [exact Hl | exact Hp].
Defined.

(** X3. Unregister then signup does not restore the order.  When the
    roster is [l1 ++ S :: l2] with [S] in neither part, an authorised
    unregister of [S] followed by an authorised signup of [S] returns and
    leaves the roster [l1 ++ l2 ++ [S]]: the same members, with [S] moved
    to the end.  The store is the one before the unregister exactly when
    [S] was already last. *)
Theorem unregister_then_signup_moves_last (st : Store) (A S : string)
    (U1 U2 : CurrentUser.t) (activity : Activity.t) (l1 l2 : list string) :
  activities st !! A = Some activity →
  Activity.participants activity = (l1 ++ S :: l2)%list →
  S ∉ l1 → S ∉ l2 →
  CurrentUser.role U1 ≠ "student" ∨ CurrentUser.email U1 = S →
  CurrentUser.role U2 ≠ "student" ∨ CurrentUser.email U2 = S →
  let st1 := (unregister_from_activity A S U1 st).2 in
  let result := signup_for_activity A S U2 st1 in
  result.1 = Returned (mkAck ("Signed up " +:+ S +:+ " for " +:+ A))
  ∧ result.2
    = set_activities
        (<[A := Activity.with_participants activity (l1 ++ l2 ++ [S])]> (activities st)) st
  ∧ (result.2 = st ↔ l2 = []).
Proof.
  intros Hact Hroster Hl1 Hl2 Hown1 Hown2 st1 result. subst result st1.
  rewrite (unregister_success _ _ _ _ _ Hact Hown1).
  2: { rewrite Hroster. apply elem_of_app. right. apply list_elem_of_here. }
  rewrite Hroster, remove_middle by done. simpl.
  erewrite signup_success; [| simpl; apply lookup_insert_eq | done |].
  2: { simpl. intros Hin. apply elem_of_app in Hin as [?|?]; tauto. }
  simpl. rewrite insert_insert_eq, with_participants_twice, <- app_assoc.
  rewrite set_activities_twice.
  split; [done|]. split; [done|]. split.
  - intros Heq.
    assert (Hlook : activities
                      (set_activities
                         (<[A := Activity.with_participants activity (l1 ++ l2 ++ [S])]>
                            (activities st)) st) !! A = Some activity)
      by (by rewrite Heq).
    simpl in Hlook. rewrite lookup_insert_eq in Hlook. injection Hlook as Hlook.
    apply (f_equal Activity.participants) in Hlook. simpl in Hlook.
    rewrite Hroster in Hlook. apply app_inv_head in Hlook.
    destruct l2 as [|y l2]; [done|].
    injection Hlook as -> _. exfalso. apply Hl2, list_elem_of_here.
  - intros ->. rewrite app_nil_l, <- Hroster, with_participants_same.
    by rewrite insert_id, set_activities_same.
Qed.

Lemma unregister_then_signup_moves_last_witness :
  let activity := Activity.mk "Learn strategies and compete in chess tournaments"
                    "Fridays, 3:30 PM - 5:00 PM" 12
                    ["michael@mergington.edu"; "daniel@mergington.edu"] in
  let S := "michael@mergington.edu" in
  let st1 := (unregister_from_activity "Chess Club" S teacher_user seed).2 in
  let result := signup_for_activity "Chess Club" S teacher_user st1 in
  activities seed !! "Chess Club" = Some activity
  ∧ Activity.participants activity = ([] ++ S :: ["daniel@mergington.edu"])%list
  ∧ (S ∉ ([] : list string))
  ∧ (S ∉ ["daniel@mergington.edu"])
  ∧ (CurrentUser.role teacher_user ≠ "student" ∨ CurrentUser.email teacher_user = S)
  ∧ activities result.2 !! "Chess Club"
    = Some (Activity.with_participants activity ["daniel@mergington.edu"; S])
  ∧ result.2 ≠ seed.
Proof.
  intros activity S st1 result.
  assert (H1 : activities seed !! "Chess Club" = Some activity) by (vm_compute; reflexivity).
  assert (H2 : Activity.participants activity = ([] ++ S :: ["daniel@mergington.edu"])%list)
    by reflexivity.
  assert (H3 : S ∉ ([] : list string)) by (apply (bool_decide_unpack _); vm_compute; exact I).
  assert (H4 : S ∉ ["daniel@mergington.edu"])
    by (apply (bool_decide_unpack _); vm_compute; exact I).
  assert (H5 : CurrentUser.role teacher_user ≠ "student" ∨ CurrentUser.email teacher_user = S)
    by (left; vm_compute; discriminate).
  split; [exact H1|]. split; [exact H2|]. split; [exact H3|]. split; [exact H4|].
  split; [exact H5|].
  destruct (unregister_then_signup_moves_last seed "Chess Club" S teacher_user teacher_user
              activity [] ["daniel@mergington.edu"] H1 H2 H3 H4 H5 H5) as (_ & Hst & Hiff).
  split.
  - fold st1 result in Hst. rewrite Hst. simpl. apply lookup_insert_eq.
  - intros Heq. apply Hiff in Heq. discriminate Heq.
Defined.

(** X4. Signups append in call order.  Two authorised signups of distinct
    emails, neither on the roster, made one after the other on the same
    activity both return, and the roster stored for the activity
    afterwards is the old roster followed by the first email and then the
    second.  The other activities, the accounts and the sessions are as
    before. *)
Theorem signups_append_in_call_order (st : Store) (A S1 S2 : string)
    (U1 U2 : CurrentUser.t) (activity : Activity.t) :
  activities st !! A = Some activity →
  S1 ∉ Activity.participants activity →
  S2 ∉ Activity.participants activity →
  S1 ≠ S2 →
  CurrentUser.role U1 ≠ "student" ∨ CurrentUser.email U1 = S1 →
  CurrentUser.role U2 ≠ "student" ∨ CurrentUser.email U2 = S2 →
  let first := signup_for_activity A S1 U1 st in
  let second := signup_for_activity A S2 U2 first.2 in
  first.1 = Returned (mkAck ("Signed up " +:+ S1 +:+ " for " +:+ A))
  ∧ second.1 = Returned (mkAck ("Signed up " +:+ S2 +:+ " for " +:+ A))
  ∧ (∃ activity',
       activities second.2 !! A = Some activity'
       ∧ Activity.participants activity'
         = (Activity.participants activity ++ [S1; S2])%list)
  ∧ (∀ B, B ≠ A → activities second.2 !! B = activities st !! B)
  ∧ users second.2 = users st
  ∧ sessions second.2 = sessions st.
Proof.
  intros Hact H1 H2 Hne Hown1 Hown2 first second. subst second first.
  rewrite (signup_success _ _ _ _ _ Hact Hown1 H1). simpl.
  erewrite signup_success; [| simpl; apply lookup_insert_eq | done |].
  2: { simpl. intros Hin. apply elem_of_app in Hin as [?|Hin]; [tauto|].
       apply list_elem_of_singleton in Hin. congruence. }
  simpl. split; [done|]. split; [done|]. split.
  { eexists. split; [apply lookup_insert_eq|]. simpl. by rewrite <- app_assoc. }
  split; [|done]. intros B HB. by rewrite !lookup_insert_ne.
Qed.

Lemma signups_append_in_call_order_witness :
  let activity := Activity.mk "Learn strategies and compete in chess tournaments"
                    "Fridays, 3:30 PM - 5:00 PM" 12
                    ["michael@mergington.edu"; "daniel@mergington.edu"] in
  let S1 := "student@mergington.edu" in
  let S2 := "emma@mergington.edu" in
  let second := signup_for_activity "Chess Club" S2 teacher_user
                  (signup_for_activity "Chess Club" S1 student_user seed).2 in
  activities seed !! "Chess Club" = Some activity
  ∧ (S1 ∉ Activity.participants activity)
  ∧ (S2 ∉ Activity.participants activity)
  ∧ S1 ≠ S2
  ∧ (CurrentUser.role student_user ≠ "student" ∨ CurrentUser.email student_user = S1)
  ∧ (CurrentUser.role teacher_user ≠ "student" ∨ CurrentUser.email teacher_user = S2)
  ∧ ∃ activity',
      activities second.2 !! "Chess Club" = Some activity'
      ∧ Activity.participants activity'
        = ["michael@mergington.edu"; "daniel@mergington.edu"; S1; S2].
Proof.
  intros activity S1 S2 second.
  assert (H1 : activities seed !! "Chess Club" = Some activity) by (vm_compute; reflexivity).
  assert (H2 : S1 ∉ Activity.participants activity)
    by (apply (bool_decide_unpack _); vm_compute; exact I).
  assert (H3 : S2 ∉ Activity.participants activity)
    by (apply (bool_decide_unpack _); vm_compute; exact I).
  assert (H4 : S1 ≠ S2) by (vm_compute; discriminate).
  assert (H5 : CurrentUser.role student_user ≠ "student" ∨ CurrentUser.email student_user = S1)
    by (right; reflexivity).
  assert (H6 : CurrentUser.role teacher_user ≠ "student" ∨ CurrentUser.email teacher_user = S2)
    by (left; vm_compute; discriminate).
  split; [exact H1|]. split; [exact H2|]. split; [exact H3|]. split; [exact H4|].
  split; [exact H5|]. split; [exact H6|].
  destruct (signups_append_in_call_order seed "Chess Club" S1 S2 student_user teacher_user
              activity H1 H2 H3 H4 H5 H6) as (_ & _ & (activity' & Hl & Hp) & _).
  exists activity'. split; [exact Hl | exact Hp].
Defined.

(** ** Sessions and accounts together *)

Lemma get_current_user_resolves (st : Store) (token email : string) (user : User.t) :
  token ≠ "" →
  sessions st !! token = Some email →
  users st !! email = Some user →
  get_current_user (Some token) st
  = (Returned (CurrentUser.mk email (User.password user) (User.role user) (User.name user)),
     st).
Proof.
  intros Ht Hs Hu. unfold get_current_user. run_handler.
  by rewrite bool_decide_eq_false_2, Hs, Hu.
Qed.

Lemma get_current_user_stale (st : Store) (token email : string) :
  token ≠ "" →
  sessions st !! token = Some email →
  users st !! email = None →
  get_current_user (Some token) st = (Raised (mkHTTPException 401 "Invalid session"), st).
Proof.
  intros Ht Hs Hu. unfold get_current_user. run_handler.
  by rewrite bool_decide_eq_false_2, Hs, Hu.
Qed.

(** A login either leaves the store alone or binds its token to the email
    of an existing account. *)
Lemma login_store (st : Store) (data : gmap string string) (session_token : string) :
  (login data session_token st).2 = st
  ∨ ∃ email user,
      users st !! email = Some user
      ∧ (login data session_token st).2
        = set_sessions (<[session_token := email]> (sessions st)) st.
Proof.
  unfold login. run_handler.
  destruct (data !! "email") as [email|]; [|by left].
  destruct (users st !! email) as [user|] eqn:Hu; [|by left].
  case_bool_decide; [by left|]. right. by exists email, user.
Qed.

(** The outcome of the session lookup depends on the cookie's own session
    entry and on [users] only. *)
Lemma get_current_user_local (st1 st2 : Store) (cookie : option string) :
  users st1 = users st2 →
  (∀ token, cookie = Some token → sessions st1 !! token = sessions st2 !! token) →
  (get_current_user cookie st1).1 = (get_current_user cookie st2).1.
Proof.
  intros Hu Hs. unfold get_current_user. run_handler. rewrite Hu.
  destruct cookie as [token|]; simpl; [|done].
  case_bool_decide; [done|]. rewrite (Hs token eq_refl).
  destruct (sessions st2 !! token) as [email|]; [|done].
  by destruct (users st2 !! email).
Qed.

(** X5. A login opens a session that resolves.  After a login that
    succeeds with a non-empty token, the session lookup with that token
    returns the email together with the password, role and name of the
    account, and [/me] answers the email, role and name. *)
Theorem login_then_resolve (st : Store) (data : gmap string string)
    (token email : string) (user : User.t) :
  data !! "email" = Some email →
  users st !! email = Some user →
  data !! "password" = Some (User.password user) →
  token ≠ "" →
  let st' := (login data token st).2 in
  get_current_user (Some token) st'
  = (Returned (CurrentUser.mk email (User.password user) (User.role user) (User.name user)),
     st')
  ∧ route_me (Some token) st'
    = (Returned (email, User.role user, User.name user), st').
Proof.
  intros He Hu Hp Ht st'. subst st'.
  rewrite (login_success _ _ _ email user) by done. simpl.
  assert (Hget : get_current_user (Some token)
                   (set_sessions (<[token := email]> (sessions st)) st)
                 = (Returned (CurrentUser.mk email (User.password user) (User.role user)
                                (User.name user)),
                    set_sessions (<[token := email]> (sessions st)) st)).
  { apply get_current_user_resolves; [done | simpl; apply lookup_insert_eq | done]. }
  split; [exact Hget|].
  unfold route_me. by rewrite (Depends_pass _ _ _ _ _ Hget).
Qed.

Lemma login_then_resolve_witness :
  let data := <["email" := "student@mergington.edu"]> (<["password" := "studpass"]> ∅)
              : gmap string string in
  let user := User.mk "studpass" "student" "Student S." in
  let token := "ZrNWmUO1sDm4J0ysKxdEkg" in
  let st' := (login data token seed).2 in
  data !! "email" = Some "student@mergington.edu"
  ∧ users seed !! "student@mergington.edu" = Some user
  ∧ data !! "password" = Some (User.password user)
  ∧ token ≠ ""
  ∧ get_current_user (Some token) st' = (Returned student_user, st')
  ∧ route_me (Some token) st'
    = (Returned ("student@mergington.edu", "student", "Student S."), st').
Proof.
  intros data user token st'.
  assert (H1 : data !! "email" = Some "student@mergington.edu") by (vm_compute; reflexivity).
  assert (H2 : users seed !! "student@mergington.edu" = Some user)
    by (vm_compute; reflexivity).
  assert (H3 : data !! "password" = Some (User.password user)) by (vm_compute; reflexivity).
  assert (H4 : token ≠ "") by (vm_compute; discriminate).
  split; [exact H1|]. split; [exact H2|]. split; [exact H3|]. split; [exact H4|].
  exact (login_then_resolve seed data token "student@mergington.edu" user H1 H2 H3 H4).
Defined.

(** X6. Deleting an account does not purge its sessions.  When an admin
    deletes the account of [email], a session token that maps to [email]
    is still in [sessions] afterwards, and the session lookup with it
    raises 401 "Invalid session". *)
Theorem stale_session_after_delete (st : Store) (cookie : option string)
    (U : CurrentUser.t) (token email : string) (target : User.t) :
  (get_current_user cookie st).1 = Returned U →
  CurrentUser.role U = "admin" →
  users st !! email = Some target →
  User.role target ≠ "admin" →
  sessions st !! token = Some email →
  token ≠ "" →
  let st' := (route_delete_user email cookie st).2 in
  sessions st' !! token = Some email
  ∧ get_current_user (Some token) st'
    = (Raised (mkHTTPException 401 "Invalid session"), st').
Proof.
  intros HU Hadmin Htarget Hrole Hs Ht st'. subst st'.
  assert (Hgate : require_roles ["admin"] cookie st = (Returned U, st)).
  { apply require_roles_pass; [done|]. rewrite Hadmin. apply list_elem_of_here. }
  unfold route_delete_user. rewrite (Depends_pass _ _ _ _ _ Hgate).
  rewrite (delete_user_success _ _ _ target) by done. simpl.
  split; [done|].
  apply get_current_user_stale with email; [done | done |].
  simpl. apply lookup_delete_eq.
Qed.

Lemma stale_session_after_delete_witness :
  let admin_login := <["email" := "admin@mergington.edu"]> (<["password" := "adminpass"]> ∅)
                     : gmap string string in
  let student_login := <["email" := "student@mergington.edu"]>
                         (<["password" := "studpass"]> ∅) : gmap string string in
  let st := (login student_login "studtoken" (login admin_login "admintoken" seed).2).2 in
  let st' := (route_delete_user "student@mergington.edu" (Some "admintoken") st).2 in
  (get_current_user (Some "admintoken") st).1 = Returned admin_user
  ∧ CurrentUser.role admin_user = "admin"
  ∧ users st !! "student@mergington.edu" = Some (User.mk "studpass" "student" "Student S.")
  ∧ sessions st !! "studtoken" = Some "student@mergington.edu"
  ∧ sessions st' !! "studtoken" = Some "student@mergington.edu"
  ∧ get_current_user (Some "studtoken") st'
    = (Raised (mkHTTPException 401 "Invalid session"), st').
Proof.
  intros admin_login student_login st st'.
  assert (H1 : (get_current_user (Some "admintoken") st).1 = Returned admin_user)
    by (vm_compute; reflexivity).
  assert (H2 : CurrentUser.role admin_user = "admin") by reflexivity.
  assert (H3 : users st !! "student@mergington.edu"
               = Some (User.mk "studpass" "student" "Student S."))
    by (vm_compute; reflexivity).
  assert (H4 : User.role (User.mk "studpass" "student" "Student S.") ≠ "admin")
    by (vm_compute; discriminate).
  assert (H5 : sessions st !! "studtoken" = Some "student@mergington.edu")
    by (vm_compute; reflexivity).
  assert (H6 : "studtoken" ≠ "") by discriminate.
  split; [exact H1|]. split; [exact H2|]. split; [exact H3|]. split; [exact H5|].
  exact (stale_session_after_delete st (Some "admintoken") admin_user "studtoken"
           "student@mergington.edu" _ H1 H2 H3 H4 H5 H6).
Defined.

(** X7. A re-created account inherits the old sessions.  If a session
    token maps to an email that has no account (its account was deleted),
    then as soon as [create_user] creates an account under that email the
    token resolves again, now to the new account's password, role and
    name. *)
Theorem recreated_account_inherits_session (st : Store) (data : gmap string string)
    (user : CurrentUser.t) (token email password role name : string) :
  sessions st !! token = Some email →
  token ≠ "" →
  users st !! email = None →
  data !! "email" = Some email → data !! "password" = Some password →
  data !! "role" = Some role → data !! "name" = Some name →
  email ≠ "" → password ≠ "" → name ≠ "" →
  role ∈ ["admin"; "staff"; "student"] →
  let st' := (create_user data user st).2 in
  get_current_user (Some token) st = (Raised (mkHTTPException 401 "Invalid session"), st)
  ∧ get_current_user (Some token) st'
    = (Returned (CurrentUser.mk email password role name), st').
Proof.
  intros Hs Ht Hfree He Hp Hr Hn He' Hp' Hn' Hrole st'. subst st'.
  split; [by apply get_current_user_stale with email|].
  rewrite (create_user_success st data user email password role name); try done.
  - simpl. apply (get_current_user_resolves _ token email (User.mk password role name));
      [done | done | simpl; apply lookup_insert_eq].
  - intros ->. repeat (apply elem_of_cons in Hrole as [[=] | Hrole]).
    by apply elem_of_nil in Hrole.
Qed.

Lemma recreated_account_inherits_session_witness :
  let student_login := <["email" := "student@mergington.edu"]>
                         (<["password" := "studpass"]> ∅) : gmap string string in
  let st0 := (login student_login "studtoken" seed).2 in
  let st := set_users (delete "student@mergington.edu" (users st0)) st0 in
  let data := <["email" := "student@mergington.edu"]> (<["password" := "taken-over"]>
              (<["role" := "admin"]> (<["name" := "Somebody Else"]> ∅)))
              : gmap string string in
  let st' := (create_user data teacher_user st).2 in
  sessions st !! "studtoken" = Some "student@mergington.edu"
  ∧ users st !! "student@mergington.edu" = None
  ∧ get_current_user (Some "studtoken") st'
    = (Returned (CurrentUser.mk "student@mergington.edu" "taken-over" "admin"
                   "Somebody Else"), st').
Proof.
  intros student_login st0 st data st'.
  assert (H1 : sessions st !! "studtoken" = Some "student@mergington.edu")
    by (vm_compute; reflexivity).
  assert (H2 : "studtoken" ≠ "") by discriminate.
  assert (H3 : users st !! "student@mergington.edu" = None) by (vm_compute; reflexivity).
  assert (D1 : data !! "email" = Some "student@mergington.edu") by (vm_compute; reflexivity).
  assert (D2 : data !! "password" = Some "taken-over") by (vm_compute; reflexivity).
  assert (D3 : data !! "role" = Some "admin") by (vm_compute; reflexivity).
  assert (D4 : data !! "name" = Some "Somebody Else") by (vm_compute; reflexivity).
  assert (N1 : "student@mergington.edu" ≠ "") by discriminate.
  assert (N2 : "taken-over" ≠ "") by discriminate.
  assert (N3 : "Somebody Else" ≠ "") by discriminate.
  assert (R : "admin" ∈ ["admin"; "staff"; "student"])
    by (apply (bool_decide_unpack _); vm_compute; exact I).
  split; [exact H1|]. split; [exact H3|].
  exact (proj2 (recreated_account_inherits_session st data teacher_user "studtoken"
                  "student@mergington.edu" "taken-over" "admin" "Somebody Else"
                  H1 H2 H3 D1 D2 D3 D4 N1 N2 N3 R)).
Defined.

(** X8. Sessions are independent.  A logout leaves every other token
    resolving exactly as before, and so does a login for every token other
    than the one it draws: a user may hold several sessions, and closing
    one closes only that one. *)
Theorem sessions_are_independent (st : Store) (other : string) :
  (∀ cookie, cookie ≠ Some other →
     (get_current_user (Some other) (logout cookie st).2).1
     = (get_current_user (Some other) st).1)
  ∧ (∀ data drawn_token, drawn_token ≠ other →
     (get_current_user (Some other) (login data drawn_token st).2).1
     = (get_current_user (Some other) st).1).
Proof.
  split.
  - intros cookie Hne. apply get_current_user_local.
    + destruct cookie as [token|]; [by rewrite logout_any | done].
    + intros ? [= <-]. destruct cookie as [token|]; [|done].
      rewrite logout_any. simpl. apply lookup_delete_ne. congruence.
  - intros data drawn_token Hne.
    destruct (login_store st data drawn_token) as [-> | (email & user & _ & ->)]; [done|].
    apply get_current_user_local; [done|].
    intros ? [= <-]. simpl. by apply lookup_insert_ne.
Qed.

Lemma sessions_are_independent_witness :
  let admin_login := <["email" := "admin@mergington.edu"]> (<["password" := "adminpass"]> ∅)
                     : gmap string string in
  let st := (login admin_login "second" (login admin_login "first" seed).2).2 in
  Some "first" ≠ Some "second"
  ∧ (get_current_user (Some "second") st).1 = Returned admin_user
  ∧ (get_current_user (Some "second") (logout (Some "first") st).2).1 = Returned admin_user
  ∧ (get_current_user (Some "first") (logout (Some "first") st).2).1
    = Raised (mkHTTPException 401 "Not authenticated").
Proof.
  intros admin_login st.
  assert (H1 : Some "first" ≠ Some "second") by discriminate.
  assert (H2 : (get_current_user (Some "second") st).1 = Returned admin_user)
    by (vm_compute; reflexivity).
  split; [exact H1|]. split; [exact H2|]. split.
  - rewrite (proj1 (sessions_are_independent st "second") (Some "first") H1). exact H2.
  - vm_compute. reflexivity.
Defined.

(** ** The dependencies in front of the handlers *)

Lemma get_current_user_raised (st : Store) (cookie : option string) (e : HTTPException) :
  (get_current_user cookie st).1 = Raised e →
  get_current_user cookie st = (Raised e, st) ∧ status_code e = 401.
Proof.
  intros H. pose proof (get_current_user_store st cookie) as Hst.
  split.
  - destruct (get_current_user cookie st) as [r st']. simpl in *. congruence.
  - revert H. unfold get_current_user. run_handler.
    destruct (nonempty cookie) as [token|]; [|by intros [= <-]].
    destruct (sessions st !! token) as [email|]; [|by intros [= <-]].
    destruct (users st !! email); [done | by intros [= <-]].
Qed.

Lemma get_current_user_session (st : Store) (cookie : option string) (U : CurrentUser.t) :
  (get_current_user cookie st).1 = Returned U →
  ∃ token user,
    cookie = Some token
    ∧ token ≠ ""
    ∧ sessions st !! token = Some (CurrentUser.email U)
    ∧ users st !! CurrentUser.email U = Some user
    ∧ U = CurrentUser.mk (CurrentUser.email U) (User.password user) (User.role user)
            (User.name user).
Proof.
  unfold get_current_user. run_handler.
  destruct cookie as [token|]; simpl; [|done].
  case_bool_decide as Ht; [done|].
  destruct (sessions st !! token) as [email|] eqn:Hs; [|done].
  destruct (users st !! email) as [user|] eqn:Hu; [|done].
  simpl. intros [= <-]. exists token, user. simpl. by rewrite Hu.
Qed.

Lemma require_roles_raised (st : Store) (roles : list string) (cookie : option string)
    (e : HTTPException) :
  (get_current_user cookie st).1 = Raised e →
  require_roles roles cookie st = (Raised e, st).
Proof.
  intros H. apply get_current_user_raised in H as [H _].
  unfold require_roles, bind. by rewrite H.
Qed.

Lemma Depends_raised {A} (dependency : option string -> Handler CurrentUser.t)
    (endpoint : CurrentUser.t -> Handler A) (cookie : option string)
    (st st' : Store) (e : HTTPException) :
  dependency cookie st = (Raised e, st') →
  Depends dependency endpoint cookie st = (Raised e, st').
Proof. intros H. unfold Depends, bind. by rewrite H. Qed.

(** X9. Authentication comes first.  When the session lookup raises for a
    cookie (always with status 401), every route that depends on it raises
    the very same exception and leaves the store as it was, before any
    argument is looked at: an unknown activity, a missing body field, an
    unknown email or an insufficient role is never reported to a caller
    who is not authenticated. *)
Theorem authentication_first (st : Store) (cookie : option string) (e : HTTPException) :
  (get_current_user cookie st).1 = Raised e →
  status_code e = 401
  ∧ route_me cookie st = (Raised e, st)
  ∧ (∀ activity_name email, route_signup activity_name email cookie st = (Raised e, st))
  ∧ (∀ activity_name email, route_unregister activity_name email cookie st = (Raised e, st))
  ∧ (∀ data, route_create_user data cookie st = (Raised e, st))
  ∧ (∀ email, route_delete_user email cookie st = (Raised e, st))
  ∧ route_list_users cookie st = (Raised e, st).
Proof.
  intros H. destruct (get_current_user_raised _ _ _ H) as [Hrun Hcode].
  split; [done|].
  split; [by apply Depends_raised|].
  split; [intros; by apply Depends_raised|].
  split; [intros; by apply Depends_raised|].
  split; [intros; by apply Depends_raised, require_roles_raised|].
  split; [intros; by apply Depends_raised, require_roles_raised|].
  by apply Depends_raised, require_roles_raised.
Qed.

Lemma authentication_first_witness :
  let e := mkHTTPException 401 "Not authenticated" in
  (get_current_user (Some "forged") seed).1 = Raised e
  ∧ route_signup "Knitting" "emma@mergington.edu" (Some "forged") seed = (Raised e, seed)
  ∧ route_delete_user "admin@mergington.edu" (Some "forged") seed = (Raised e, seed).
Proof.
  intros e.
  assert (H : (get_current_user (Some "forged") seed).1 = Raised e)
    by (vm_compute; reflexivity).
  split; [exact H|].
  destruct (authentication_first seed (Some "forged") e H) as (_ & _ & Hs & _ & _ & Hd & _).
  split; [apply Hs | apply Hd].
Defined.

(** X10. The role gate.  For a session that resolves to a user whose role
    is neither ["admin"] nor ["staff"], creating a user and listing the
    users are answered 403 "Insufficient permissions"; for one whose role
    is not ["admin"], deleting a user is.  The answer does not depend on
    the body or the email (a bad body or an unknown email is not reported
    instead), and the store is left as it was. *)
Theorem role_gate_refuses (st : Store) (cookie : option string) (U : CurrentUser.t) :
  (get_current_user cookie st).1 = Returned U →
  (CurrentUser.role U ∉ ["admin"; "staff"] →
   (∀ data, route_create_user data cookie st
            = (Raised (mkHTTPException 403 "Insufficient permissions"), st))
   ∧ route_list_users cookie st
     = (Raised (mkHTTPException 403 "Insufficient permissions"), st))
  ∧ (CurrentUser.role U ≠ "admin" →
     ∀ email, route_delete_user email cookie st
              = (Raised (mkHTTPException 403 "Insufficient permissions"), st)).
Proof.
  intros HU. split.
  - intros Hrole.
    pose proof (require_roles_refuse st _ cookie U HU Hrole) as Hgate.
    split; [intros data|]; by apply Depends_raised.
  - intros Hrole email. apply Depends_raised.
    apply require_roles_refuse with U; [done|].
    intros Hin. apply list_elem_of_singleton in Hin. done.
Qed.

Lemma role_gate_refuses_witness :
  let student_login := <["email" := "student@mergington.edu"]>
                         (<["password" := "studpass"]> ∅) : gmap string string in
  let st := (login student_login "studtoken" seed).2 in
  (get_current_user (Some "studtoken") st).1 = Returned student_user
  ∧ (CurrentUser.role student_user ∉ ["admin"; "staff"])
  ∧ CurrentUser.role student_user ≠ "admin"
  ∧ route_list_users (Some "studtoken") st
    = (Raised (mkHTTPException 403 "Insufficient permissions"), st)
  ∧ route_delete_user "nobody@mergington.edu" (Some "studtoken") st
    = (Raised (mkHTTPException 403 "Insufficient permissions"), st).
Proof.
  intros student_login st.
  assert (H1 : (get_current_user (Some "studtoken") st).1 = Returned student_user)
    by (vm_compute; reflexivity).
  assert (H2 : CurrentUser.role student_user ∉ ["admin"; "staff"])
    by (apply (bool_decide_unpack _); vm_compute; exact I).
  assert (H3 : CurrentUser.role student_user ≠ "admin") by (vm_compute; discriminate).
  split; [exact H1|]. split; [exact H2|]. split; [exact H3|].
  destruct (role_gate_refuses st (Some "studtoken") student_user H1) as [Ha Hb].
  split; [exact (proj2 (Ha H2)) | exact (Hb H3 "nobody@mergington.edu")].
Defined.

(** ** Creating accounts *)

Lemma nonempty_None (v : option string) : nonempty v = None ↔ v = None ∨ v = Some "".
Proof.
  unfold nonempty. destruct v as [s|]; [|split; [by left | done]].
  case_bool_decide as Hs.
  - subst. split; [by right | done].
  - split; [done|]. intros [[=] | [= ->]]. done.
Qed.

Lemma create_user_raised_inv (st st' : Store) (data : gmap string string)
    (user : CurrentUser.t) (e : HTTPException) :
  create_user data user st = (Raised e, st') → st' = st ∧ status_code e = 400.
Proof.
  unfold create_user.
  destruct (nonempty (data !! "email")) as [email|]; [|by intros [= <- <-]].
  destruct (nonempty (data !! "password")) as [password|]; [|by intros [= <- <-]].
  destruct (nonempty (data !! "role")) as [role|]; [|by intros [= <- <-]].
  destruct (nonempty (data !! "name")) as [name|]; [|by intros [= <- <-]].
  run_handler.
  case_bool_decide; [by intros [= <- <-]|].
  case_bool_decide; [by intros [= <- <-]|]. done.
Qed.

(** X11. create_user failures, in order.  A body in which any of
    ["email"], ["password"], ["role"], ["name"] is absent or the empty
    string is answered 400 "Missing user fields", whatever the other
    fields.  With the four fields present and non-empty, an email that
    already has an account is answered 400 "User already exists", even
    when the role is not a valid one; only then is a role outside
    admin, staff, student answered 400 "Invalid role".  Every raise has
    status 400 and leaves the store as it was: an existing account is
    never overwritten. *)
Theorem create_user_failure_precedence (st : Store) (data : gmap string string)
    (user : CurrentUser.t) :
  let missing k := data !! k = None ∨ data !! k = Some "" in
  (missing "email" ∨ missing "password" ∨ missing "role" ∨ missing "name" →
   create_user data user st = (Raised (mkHTTPException 400 "Missing user fields"), st))
  ∧ (∀ email password role name,
       data !! "email" = Some email → data !! "password" = Some password →
       data !! "role" = Some role → data !! "name" = Some name →
       email ≠ "" → password ≠ "" → role ≠ "" → name ≠ "" →
       (is_Some (users st !! email) →
        create_user data user st = (Raised (mkHTTPException 400 "User already exists"), st))
       ∧ (users st !! email = None → role ∉ ["admin"; "staff"; "student"] →
          create_user data user st = (Raised (mkHTTPException 400 "Invalid role"), st)))
  ∧ (∀ e st', create_user data user st = (Raised e, st') → st' = st ∧ status_code e = 400).
Proof.
  intros missing. split; [|split; [|intros e st'; apply create_user_raised_inv]].
  - unfold missing, create_user. rewrite <- !nonempty_None.
    intros [-> | [H | [H | H]]]; [done|..].
    + destruct (nonempty (data !! "email")); [|done]. by rewrite H.
    + destruct (nonempty (data !! "email")); [|done].
      destruct (nonempty (data !! "password")); [|done]. by rewrite H.
    + destruct (nonempty (data !! "email")); [|done].
      destruct (nonempty (data !! "password")); [|done].
      destruct (nonempty (data !! "role")); [|done]. by rewrite H.
  - intros email password role name He Hp Hr Hn He' Hp' Hr' Hn'.
    unfold create_user. rewrite He, Hp, Hr, Hn, !nonempty_Some by done.
    run_handler. split.
    + intros Hex. by rewrite bool_decide_eq_true_2.
    + intros Hfree Hrole. rewrite bool_decide_eq_false_2.
      2: { rewrite Hfree. by intros [? [=]]. }
      by rewrite bool_decide_eq_true_2.
Qed.

Lemma create_user_failure_precedence_witness :
  let no_name := <["email" := "admin@mergington.edu"]> (<["password" := "x"]>
                 (<["role" := "wizard"]> (<["name" := ""]> ∅))) : gmap string string in
  let taken := <["email" := "admin@mergington.edu"]> (<["password" := "x"]>
               (<["role" := "wizard"]> (<["name" := "Merlin"]> ∅))) : gmap string string in
  let bad_role := <["email" := "merlin@mergington.edu"]> (<["password" := "x"]>
                  (<["role" := "wizard"]> (<["name" := "Merlin"]> ∅)))
                  : gmap string string in
  no_name !! "name" = Some ""
  ∧ create_user no_name teacher_user seed
    = (Raised (mkHTTPException 400 "Missing user fields"), seed)
  ∧ is_Some (users seed !! "admin@mergington.edu")
  ∧ create_user taken teacher_user seed
    = (Raised (mkHTTPException 400 "User already exists"), seed)
  ∧ users seed !! "merlin@mergington.edu" = None
  ∧ ("wizard" ∉ ["admin"; "staff"; "student"])
  ∧ create_user bad_role teacher_user seed
    = (Raised (mkHTTPException 400 "Invalid role"), seed).
Proof.
  intros no_name taken bad_role.
  assert (H1 : no_name !! "name" = Some "") by (vm_compute; reflexivity).
  assert (H2 : is_Some (users seed !! "admin@mergington.edu")) by (vm_compute; eauto).
  assert (H3 : users seed !! "merlin@mergington.edu" = None) by (vm_compute; reflexivity).
  assert (H4 : "wizard" ∉ ["admin"; "staff"; "student"])
    by (apply (bool_decide_unpack _); vm_compute; exact I).
  assert (N1 : "admin@mergington.edu" ≠ "") by discriminate.
  assert (N2 : "x" ≠ "") by discriminate.
  assert (N3 : "wizard" ≠ "") by discriminate.
  assert (N4 : "Merlin" ≠ "") by discriminate.
  assert (N5 : "merlin@mergington.edu" ≠ "") by discriminate.
  split; [exact H1|].
  split.
  { apply (proj1 (create_user_failure_precedence seed no_name teacher_user)).
    right. right. right. right. exact H1. }
  split; [exact H2|].
  split.
  { refine (proj1 (proj1 (proj2 (create_user_failure_precedence seed taken teacher_user))
                     "admin@mergington.edu" "x" "wizard" "Merlin" _ _ _ _ N1 N2 N3 N4) H2);
      vm_compute; reflexivity. }
  split; [exact H3|]. split; [exact H4|].
  refine (proj2 (proj1 (proj2 (create_user_failure_precedence seed bad_role teacher_user))
                   "merlin@mergington.edu" "x" "wizard" "Merlin" _ _ _ _ N5 N2 N3 N4) H3 H4);
    vm_compute; reflexivity.
Defined.

(** X12. A created account can log in.  After [create_user] has returned
    for an email, password, role and name, a login with that email and
    password returns the role and the name that were given, and opens a
    session for the email. *)
Theorem create_then_login (st : Store) (data credentials : gmap string string)
    (user : CurrentUser.t) (email password role name token : string) :
  data !! "email" = Some email → data !! "password" = Some password →
  data !! "role" = Some role → data !! "name" = Some name →
  email ≠ "" → password ≠ "" → name ≠ "" →
  role ∈ ["admin"; "staff"; "student"] →
  users st !! email = None →
  credentials !! "email" = Some email →
  credentials !! "password" = Some password →
  let st1 := (create_user data user st).2 in
  let result := login credentials token st1 in
  result.1 = Returned (LoginOk.mk "Login successful" role name,
                       set_cookie "session_token" token true)
  ∧ sessions result.2 !! token = Some email.
Proof.
  intros He Hp Hr Hn He' Hp' Hn' Hrole Hfree Hce Hcp st1 result. subst result st1.
  rewrite (create_user_success st data user email password role name); try done.
  2: { intros ->. repeat (apply elem_of_cons in Hrole as [[=] | Hrole]).
       by apply elem_of_nil in Hrole. }
  simpl.
  rewrite (login_success _ credentials token email (User.mk password role name));
    [| done | simpl; apply lookup_insert_eq | done].
  simpl. split; [done | apply lookup_insert_eq].
Qed.

Lemma create_then_login_witness :
  let data := <["email" := "merlin@mergington.edu"]> (<["password" := "excalibur"]>
              (<["role" := "staff"]> (<["name" := "Merlin"]> ∅))) : gmap string string in
  let credentials := <["email" := "merlin@mergington.edu"]>
                       (<["password" := "excalibur"]> ∅) : gmap string string in
  let result := login credentials "tok" (create_user data admin_user seed).2 in
  users seed !! "merlin@mergington.edu" = None
  ∧ result.1 = Returned (LoginOk.mk "Login successful" "staff" "Merlin",
                         set_cookie "session_token" "tok" true)
  ∧ sessions result.2 !! "tok" = Some "merlin@mergington.edu".
Proof.
  intros data credentials result.
  assert (D1 : data !! "email" = Some "merlin@mergington.edu") by (vm_compute; reflexivity).
  assert (D2 : data !! "password" = Some "excalibur") by (vm_compute; reflexivity).
  assert (D3 : data !! "role" = Some "staff") by (vm_compute; reflexivity).
  assert (D4 : data !! "name" = Some "Merlin") by (vm_compute; reflexivity).
  assert (N1 : "merlin@mergington.edu" ≠ "") by discriminate.
  assert (N2 : "excalibur" ≠ "") by discriminate.
  assert (N3 : "Merlin" ≠ "") by discriminate.
  assert (R : "staff" ∈ ["admin"; "staff"; "student"])
    by (apply (bool_decide_unpack _); vm_compute; exact I).
  assert (F : users seed !! "merlin@mergington.edu" = None) by (vm_compute; reflexivity).
  assert (C1 : credentials !! "email" = Some "merlin@mergington.edu")
    by (vm_compute; reflexivity).
  assert (C2 : credentials !! "password" = Some "excalibur") by (vm_compute; reflexivity).
  split; [exact F|].
  exact (create_then_login seed data credentials admin_user "merlin@mergington.edu"
           "excalibur" "staff" "Merlin" "tok" D1 D2 D3 D4 N1 N2 N3 R F C1 C2).
Defined.

(** X13. Create then delete.  In one admin session, creating an account
    of role ["staff"] or ["student"] under a fresh email and then deleting
    that email gives back the store from before the creation.  For an
    account created with role ["admin"] the deletion is answered 403
    instead and the account stays: an admin, once created, cannot be
    removed. *)
Theorem create_delete_round_trip (st : Store) (cookie : option string) (U : CurrentUser.t)
    (data : gmap string string) (email password role name : string) :
  (get_current_user cookie st).1 = Returned U →
  CurrentUser.role U = "admin" →
  data !! "email" = Some email → data !! "password" = Some password →
  data !! "role" = Some role → data !! "name" = Some name →
  email ≠ "" → password ≠ "" → name ≠ "" →
  role ∈ ["admin"; "staff"; "student"] →
  users st !! email = None →
  let st1 := (route_create_user data cookie st).2 in
  (role ≠ "admin" →
   route_delete_user email cookie st1
   = (Returned (mkAck ("User " +:+ email +:+ " deleted")), st))
  ∧ (role = "admin" →
     route_delete_user email cookie st1
     = (Raised (mkHTTPException 403 "Cannot delete another admin"), st1)
     ∧ users st1 !! email = Some (User.mk password "admin" name)).
Proof.
  intros HU Hadmin He Hp Hr Hn He' Hp' Hn' Hrole Hfree st1. subst st1.
  assert (Hr' : role ≠ "").
  { intros ->. repeat (apply elem_of_cons in Hrole as [[=] | Hrole]).
    by apply elem_of_nil in Hrole. }
  assert (Hgate : require_roles ["admin"; "staff"] cookie st = (Returned U, st)).
  { apply require_roles_pass; [done|]. rewrite Hadmin. apply list_elem_of_here. }
  unfold route_create_user. rewrite (Depends_pass _ _ _ _ _ Hgate).
  rewrite (create_user_success st data U email password role name) by done. simpl.
  destruct (get_current_user_session _ _ _ HU) as (token & user & -> & Ht & Hs & Hu & HUeq).
  assert (Hne : CurrentUser.email U ≠ email) by congruence.
  assert (HU1 : (get_current_user (Some token)
                   (set_users (<[email := User.mk password role name]> (users st)) st)).1
                = Returned U).
  { rewrite (get_current_user_resolves _ token (CurrentUser.email U) user);
      [by rewrite <- HUeq | done | done |].
    simpl. by rewrite lookup_insert_ne. }
  assert (Hgate1 : require_roles ["admin"] (Some token)
                     (set_users (<[email := User.mk password role name]> (users st)) st)
                   = (Returned U,
                      set_users (<[email := User.mk password role name]> (users st)) st)).
  { apply require_roles_pass; [done|]. rewrite Hadmin. apply list_elem_of_here. }
  unfold route_delete_user. rewrite (Depends_pass _ _ _ _ _ Hgate1).
  split.
  - intros Hnadm.
    rewrite (delete_user_success _ _ _ (User.mk password role name));
      [| simpl; apply lookup_insert_eq | done].
    simpl. rewrite delete_insert_id by done.
    f_equal. by destruct st.
  - intros ->. split; [|simpl; apply lookup_insert_eq].
    apply delete_user_admin with (User.mk password "admin" name);
      [simpl; apply lookup_insert_eq | done].
Qed.

Lemma create_delete_round_trip_witness :
  let admin_login := <["email" := "admin@mergington.edu"]> (<["password" := "adminpass"]> ∅)
                     : gmap string string in
  let st := (login admin_login "admintoken" seed).2 in
  let data := <["email" := "merlin@mergington.edu"]> (<["password" := "excalibur"]>
              (<["role" := "staff"]> (<["name" := "Merlin"]> ∅))) : gmap string string in
  let st1 := (route_create_user data (Some "admintoken") st).2 in
  (get_current_user (Some "admintoken") st).1 = Returned admin_user
  ∧ users st !! "merlin@mergington.edu" = None
  ∧ users st1 !! "merlin@mergington.edu" = Some (User.mk "excalibur" "staff" "Merlin")
  ∧ route_delete_user "merlin@mergington.edu" (Some "admintoken") st1
    = (Returned (mkAck ("User " +:+ "merlin@mergington.edu" +:+ " deleted")), st).
Proof.
  intros admin_login st data st1.
  assert (H1 : (get_current_user (Some "admintoken") st).1 = Returned admin_user)
    by (vm_compute; reflexivity).
  assert (H2 : CurrentUser.role admin_user = "admin") by reflexivity.
  assert (D1 : data !! "email" = Some "merlin@mergington.edu") by (vm_compute; reflexivity).
  assert (D2 : data !! "password" = Some "excalibur") by (vm_compute; reflexivity).
  assert (D3 : data !! "role" = Some "staff") by (vm_compute; reflexivity).
  assert (D4 : data !! "name" = Some "Merlin") by (vm_compute; reflexivity).
  assert (N1 : "merlin@mergington.edu" ≠ "") by discriminate.
  assert (N2 : "excalibur" ≠ "") by discriminate.
  assert (N3 : "Merlin" ≠ "") by discriminate.
  assert (R : "staff" ∈ ["admin"; "staff"; "student"])
    by (apply (bool_decide_unpack _); vm_compute; exact I).
  assert (F : users st !! "merlin@mergington.edu" = None) by (vm_compute; reflexivity).
  assert (NA : "staff" ≠ "admin") by discriminate.
  split; [exact H1|]. split; [exact F|].
  split; [vm_compute; reflexivity|].
  exact (proj1 (create_delete_round_trip st (Some "admintoken") admin_user data
                  "merlin@mergington.edu" "excalibur" "staff" "Merlin"
                  H1 H2 D1 D2 D3 D4 N1 N2 N3 R F) NA).
Defined.

(** * The application as a whole *)

Lemma reply_run {A} (wrap : A -> response) (h : Handler A) (st : Store) :
  reply wrap h st
  = match h st with
    | (Returned a, st') => (Returned (wrap a), st')
    | (Raised e, st') => (Raised e, st')
    end.
Proof. unfold reply, bind, ret. by destruct (h st) as [[e|a] st']. Qed.

Lemma reply_store {A} (wrap : A -> response) (h : Handler A) (st : Store) :
  (reply wrap h st).2 = (h st).2.
Proof. rewrite reply_run. by destruct (h st) as [[e|a] st']. Qed.

Lemma reply_raised {A} (wrap : A -> response) (h : Handler A) (st st' : Store)
    (e : HTTPException) :
  reply wrap h st = (Raised e, st') → h st = (Raised e, st').
Proof. rewrite reply_run. destruct (h st) as [[e0|a] st0]; [by intros [= -> ->] | done]. Qed.

Lemma require_roles_store (st : Store) (roles : list string) (cookie : option string) :
  (require_roles roles cookie st).2 = st.
Proof.
  unfold require_roles, bind.
  pose proof (get_current_user_store st cookie) as Hst.
  destruct (get_current_user cookie st) as [[e|U] st']; simpl in *; [done|].
  by case_bool_decide.
Qed.

(** A route either stops at its dependency, with the store untouched, or
    runs its handler on the store as it was. *)
Lemma Depends_cases {A} (dependency : option string -> Handler CurrentUser.t)
    (endpoint : CurrentUser.t -> Handler A) (cookie : option string) (st : Store) :
  (∀ c s, (dependency c s).2 = s) →
  (∃ e, dependency cookie st = (Raised e, st)
        ∧ Depends dependency endpoint cookie st = (Raised e, st))
  ∨ (∃ U, dependency cookie st = (Returned U, st)
          ∧ Depends dependency endpoint cookie st = endpoint U st).
Proof.
  intros Hpure. specialize (Hpure cookie st). unfold Depends, bind.
  destruct (dependency cookie st) as [[e|U] st']; simpl in Hpure; subst; eauto.
Qed.

(** ** What one request can do to the store *)

Lemma signup_effect (st : Store) (activity_name email : string) (user : CurrentUser.t) :
  effect st (signup_for_activity activity_name email user st).2.
Proof.
  destruct (signup_for_activity activity_name email user st) as [[e|ack] st'] eqn:Hrun.
  - apply signup_raised_inv in Hrun as ->. constructor.
  - destruct (signup_returned_inv _ _ _ _ _ _ Hrun) as (activity & Hact & Hown & Hin).
    rewrite (signup_success _ _ _ _ _ Hact Hown Hin) in Hrun. injection Hrun as _ <-.
    by apply effect_enrolled.
Qed.

Lemma unregister_effect (st : Store) (activity_name email : string) (user : CurrentUser.t) :
  effect st (unregister_from_activity activity_name email user st).2.
Proof.
  destruct (unregister_from_activity activity_name email user st) as [[e|ack] st'] eqn:Hrun.
  - apply unregister_raised_inv in Hrun as ->. constructor.
  - destruct (unregister_returned_inv _ _ _ _ _ _ Hrun) as (activity & Hact & Hown & Hin).
    rewrite (unregister_success _ _ _ _ _ Hact Hown Hin) in Hrun. injection Hrun as _ <-.
    by apply effect_withdrawn.
Qed.

Lemma login_effect (st : Store) (data : gmap string string) (session_token : string) :
  effect st (login data session_token st).2.
Proof.
  destruct (login_store st data session_token) as [-> | (email & user & Hu & ->)].
  - constructor.
  - by apply effect_session_added with user.
Qed.

Lemma logout_effect (st : Store) (cookie : option string) : effect st (logout cookie st).2.
Proof.
  destruct cookie as [token|]; [|constructor].
  rewrite logout_any. apply effect_session_removed.
Qed.

Lemma create_user_effect (st : Store) (data : gmap string string) (user : CurrentUser.t) :
  effect st (create_user data user st).2.
Proof.
  unfold create_user.
  destruct (nonempty (data !! "email")) as [email|] eqn:He; [|constructor].
  destruct (nonempty (data !! "password")) as [password|] eqn:Hp; [|constructor].
  destruct (nonempty (data !! "role")) as [role|]; [|constructor].
  destruct (nonempty (data !! "name")) as [name|] eqn:Hn; [|constructor].
  run_handler.
  case_bool_decide as Hex; [constructor|].
  case_bool_decide as Hrole; [constructor|]. simpl.
  assert (Hne : ∀ v s, nonempty v = Some s → s ≠ "").
  { intros [s'|] s; simpl; [|done]. case_bool_decide; [done | by intros [= <-]]. }
  assert (Hfree : users st !! email = None).
  { destruct (users st !! email) eqn:Hu; [|done]. exfalso. apply Hex. eauto. }
  assert (Hvalid : role ∈ ["admin"; "staff"; "student"]).
  { destruct (decide (role ∈ ["admin"; "staff"; "student"])); tauto. }
  apply effect_user_created; eauto.
Qed.

Lemma delete_user_effect (st : Store) (email : string) (user : CurrentUser.t) :
  effect st (delete_user email user st).2.
Proof.
  unfold delete_user. run_handler.
  destruct (users st !! email) as [target|] eqn:Hu; [|constructor].
  case_bool_decide; [constructor|]. simpl. by apply effect_user_deleted with target.
Qed.

Lemma Depends_effect {A} (dependency : option string -> Handler CurrentUser.t)
    (endpoint : CurrentUser.t -> Handler A) (cookie : option string) (st : Store) :
  (∀ c s, (dependency c s).2 = s) →
  (∀ U, effect st (endpoint U st).2) →
  effect st (Depends dependency endpoint cookie st).2.
Proof.
  intros Hpure Hend.
  destruct (Depends_cases dependency endpoint cookie st Hpure)
    as [(e & _ & ->) | (U & _ & ->)]; [constructor | apply Hend].
Qed.

Lemma app_effect (r : request) (st : Store) : effect st (app r st).2.
Proof.
  destruct r; unfold app; rewrite reply_store.
  - constructor.
  - constructor.
  - apply login_effect.
  - apply logout_effect.
  - apply Depends_effect; [intros; apply get_current_user_store | intros; constructor].
  - apply Depends_effect; [intros; apply get_current_user_store | intros; apply signup_effect].
  - apply Depends_effect;
      [intros; apply get_current_user_store | intros; apply unregister_effect].
  - apply Depends_effect; [intros; apply require_roles_store | intros; apply create_user_effect].
  - apply Depends_effect; [intros; apply require_roles_store | intros; apply delete_user_effect].
  - apply Depends_effect; [intros; apply require_roles_store | intros; constructor].
Qed.

Lemma run_invariant (P : Store -> Prop) :
  (∀ st st', effect st st' → P st → P st') →
  ∀ rs st, P st → P (run rs st).
Proof.
  intros Hstep rs. induction rs as [|r rs IH]; intros st HP; simpl; [done|].
  apply IH. apply Hstep with st; [apply app_effect | done].
Qed.

(** ** Invariants of the store *)

Lemma effect_rosters_nodup (st st' : Store) :
  effect st st' → rosters_nodup st → rosters_nodup st'.
Proof.
  unfold rosters_nodup.
  intros [| | |name activity email Hact Hin|name activity email Hact Hin| |] Hinv;
    simpl; try done.
  - apply map_Forall_insert_2; [|done]. simpl.
    apply append_NoDup; [|done]. by apply (Hinv name activity).
  - apply map_Forall_insert_2; [|done]. simpl.
    apply remove_NoDup. by apply (Hinv name activity).
Qed.

(** X14. Rosters stay free of duplicates.  If no roster of the catalog
    lists an email twice, then after any sequence of requests to the
    application, whatever their cookies, arguments and outcomes, still no
    roster lists an email twice. *)
Theorem rosters_stay_duplicate_free (rs : list request) (st : Store) :
  rosters_nodup st → rosters_nodup (run rs st).
Proof. apply run_invariant. apply effect_rosters_nodup. Qed.

Lemma rosters_stay_duplicate_free_witness :
  let admin_login := <["email" := "admin@mergington.edu"]> (<["password" := "adminpass"]> ∅)
                     : gmap string string in
  let rs := [POST_login admin_login "admintoken";
             POST_signup (Some "admintoken") "Chess Club" "emma@mergington.edu";
             POST_signup (Some "admintoken") "Chess Club" "emma@mergington.edu";
             DELETE_unregister (Some "admintoken") "Chess Club" "michael@mergington.edu"] in
  rosters_nodup seed
  ∧ rosters_nodup (run rs seed)
  ∧ Activity.participants <$> activities (run rs seed) !! "Chess Club"
    = Some ["daniel@mergington.edu"; "emma@mergington.edu"].
Proof.
  intros admin_login rs.
  assert (H : rosters_nodup seed) by (apply (bool_decide_unpack _); vm_compute; exact I).
  split; [exact H|].
  split; [exact (rosters_stay_duplicate_free rs seed H) | vm_compute; reflexivity].
Defined.

Lemma effect_roles_valid (st st' : Store) :
  effect st st' → roles_valid st → roles_valid st'.
Proof.
  unfold roles_valid.
  intros [| | | | |email password role name Hfree He Hp Hn Hrole|email target Hu Hr] Hinv;
    simpl; try done.
  - by apply map_Forall_insert_2.
  - by apply map_Forall_delete.
Qed.

(** X15. Roles stay valid.  If every account has role admin, staff or
    student, then after any sequence of requests every account still has,
    and so has every user that the session lookup returns. *)
Theorem roles_stay_valid (rs : list request) (st : Store) :
  roles_valid st →
  roles_valid (run rs st)
  ∧ ∀ cookie U, (get_current_user cookie (run rs st)).1 = Returned U →
      CurrentUser.role U ∈ ["admin"; "staff"; "student"].
Proof.
  intros Hinv.
  assert (Hrun : roles_valid (run rs st)).
  { revert Hinv. apply run_invariant. apply effect_roles_valid. }
  split; [done|]. intros cookie U HU.
  destruct (get_current_user_session _ _ _ HU) as (token & user & _ & _ & _ & Hu & ->).
  simpl. by apply (Hrun _ _ Hu).
Qed.

Lemma roles_stay_valid_witness :
  let teacher_login := <["email" := "teacher@mergington.edu"]>
                         (<["password" := "teachpass"]> ∅) : gmap string string in
  let wizard := <["email" := "merlin@mergington.edu"]> (<["password" := "excalibur"]>
                (<["role" := "wizard"]> (<["name" := "Merlin"]> ∅))) : gmap string string in
  let knight := <["email" := "arthur@mergington.edu"]> (<["password" := "camelot"]>
                (<["role" := "admin"]> (<["name" := "Arthur"]> ∅))) : gmap string string in
  let rs := [POST_login teacher_login "teachtoken";
             POST_users_create (Some "teachtoken") wizard;
             POST_users_create (Some "teachtoken") knight] in
  roles_valid seed
  ∧ roles_valid (run rs seed)
  ∧ users (run rs seed) !! "merlin@mergington.edu" = None
  ∧ users (run rs seed) !! "arthur@mergington.edu" = Some (User.mk "camelot" "admin" "Arthur").
Proof.
  intros teacher_login wizard knight rs.
  assert (H : roles_valid seed) by (apply (bool_decide_unpack _); vm_compute; exact I).
  split; [exact H|].
  split; [exact (proj1 (roles_stay_valid rs seed H))|].
  split; vm_compute; reflexivity.
Defined.

Lemma effect_catalog (st st' : Store) (name : string) :
  effect st st' →
  option_Forall2 same_but_roster (activities st !! name) (activities st' !! name).
Proof.
  assert (Hrefl : ∀ o, option_Forall2 same_but_roster o o).
  { intros [a|]; constructor. by repeat split. }
  intros [| | |name' activity email Hact Hin|name' activity email Hact Hin| |];
    simpl; try apply Hrefl.
  - destruct (decide (name' = name)) as [->|Hne].
    + rewrite lookup_insert_eq, Hact. constructor. by repeat split.
    + rewrite lookup_insert_ne by done. apply Hrefl.
  - destruct (decide (name' = name)) as [->|Hne].
    + rewrite lookup_insert_eq, Hact. constructor. by repeat split.
    + rewrite lookup_insert_ne by done. apply Hrefl.
Qed.

(** X16. The catalog is fixed.  After any sequence of requests the catalog
    has exactly the activity names it had before, and each activity has
    the description, schedule and [max_participants] it had: no request
    creates, removes or renames an activity or edits anything but a
    roster. *)
Theorem catalog_is_fixed (rs : list request) (st : Store) (name : string) :
  option_Forall2 same_but_roster (activities st !! name) (activities (run rs st) !! name).
Proof.
  apply (run_invariant
           (fun s => option_Forall2 same_but_roster (activities st !! name)
                       (activities s !! name))).
  - intros s s' Heff Hs. pose proof (effect_catalog s s' name Heff) as Hstep.
    destruct Hs as [a1 a2 (H1 & H2 & H3)|]; inversion Hstep as [? a3 (H4 & H5 & H6)|];
      subst; constructor.
    repeat split; congruence.
  - destruct (activities st !! name); constructor. by repeat split.
Qed.

Lemma effect_admin_stays (st st' : Store) (email : string) (info : User.t) :
  effect st st' →
  User.role info = "admin" →
  users st !! email = Some info → users st' !! email = Some info.
Proof.
  intros [| | | | |email' password role name Hfree He Hp Hn Hrole|email' target Hu Hr]
    Hadmin Hinfo; simpl; try done.
  - rewrite lookup_insert_ne; [done | congruence].
  - rewrite lookup_delete_ne; [done | congruence].
Qed.

(** X17. Admin accounts are permanent.  An account of role ["admin"] is
    still there, with the same password, role and name, after any sequence
    of requests; in particular a login with its email and password
    succeeds in every later state. *)
Theorem admin_accounts_are_permanent (rs : list request) (st : Store) (email : string)
    (info : User.t) :
  users st !! email = Some info →
  User.role info = "admin" →
  users (run rs st) !! email = Some info
  ∧ ∀ data token,
      data !! "email" = Some email → data !! "password" = Some (User.password info) →
      (login data token (run rs st)).1
      = Returned (LoginOk.mk "Login successful" "admin" (User.name info),
                  set_cookie "session_token" token true).
Proof.
  intros Hinfo Hadmin.
  assert (Hrun : users (run rs st) !! email = Some info).
  { revert Hinfo. apply (run_invariant (fun s => users s !! email = Some info)).
    intros s s' Heff. by apply effect_admin_stays. }
  split; [done|]. intros data token He Hp.
  rewrite (login_success _ data token email info) by done. simpl. by rewrite Hadmin.
Qed.

Lemma admin_accounts_are_permanent_witness :
  let admin_login := <["email" := "admin@mergington.edu"]> (<["password" := "adminpass"]> ∅)
                     : gmap string string in
  let info := User.mk "adminpass" "admin" "Admin User" in
  let rs := [POST_login admin_login "admintoken";
             DELETE_users (Some "admintoken") "admin@mergington.edu";
             DELETE_users (Some "admintoken") "teacher@mergington.edu"] in
  users seed !! "admin@mergington.edu" = Some info
  ∧ User.role info = "admin"
  ∧ users (run rs seed) !! "teacher@mergington.edu" = None
  ∧ users (run rs seed) !! "admin@mergington.edu" = Some info.
Proof.
  intros admin_login info rs.
  assert (H1 : users seed !! "admin@mergington.edu" = Some info) by (vm_compute; reflexivity).
  assert (H2 : User.role info = "admin") by reflexivity.
  split; [exact H1|]. split; [exact H2|].
  split; [vm_compute; reflexivity|].
  exact (proj1 (admin_accounts_are_permanent rs seed "admin@mergington.edu" info H1 H2)).
Defined.

(** ** Failures and footprints *)

Lemma login_raised_inv (st st' : Store) (data : gmap string string) (session_token : string)
    (e : HTTPException) :
  login data session_token st = (Raised e, st') → st' = st.
Proof.
  unfold login. run_handler.
  destruct (data !! "email") as [email|]; [|by intros [= _ <-]].
  destruct (users st !! email) as [user|]; [|by intros [= _ <-]].
  case_bool_decide; [by intros [= _ <-] | done].
Qed.

Lemma Depends_raised_inv {A} (dependency : option string -> Handler CurrentUser.t)
    (endpoint : CurrentUser.t -> Handler A) (cookie : option string)
    (st st' : Store) (e : HTTPException) :
  (∀ c s, (dependency c s).2 = s) →
  (∀ U s' e', endpoint U st = (Raised e', s') → s' = st) →
  Depends dependency endpoint cookie st = (Raised e, st') →
  st' = st.
Proof.
  intros Hpure Hend.
  destruct (Depends_cases dependency endpoint cookie st Hpure)
    as [(e0 & Hdep & ->) | (U & _ & ->)].
  - by intros [= _ <-].
  - apply Hend.
Qed.

(** X18. A request that fails changes nothing.  Whenever a handler of the
    application, or the dependency in front of it, answers a request by
    raising an [HTTPException], the store is exactly the one before the
    request: on every route each [raise] comes before the first write. *)
Theorem failed_request_changes_nothing (r : request) (st st' : Store) (e : HTTPException) :
  app r st = (Raised e, st') → st' = st.
Proof.
  destruct r; unfold app; intros H; apply reply_raised in H.
  - done.
  - done.
  - by apply login_raised_inv in H.
  - destruct cookie as [token|]; [by rewrite logout_any in H | done].
  - revert H. apply Depends_raised_inv; [intros; apply get_current_user_store | done].
  - revert H. apply Depends_raised_inv; [intros; apply get_current_user_store |].
    intros U s' e' Hrun. by eapply signup_raised_inv.
  - revert H. apply Depends_raised_inv; [intros; apply get_current_user_store |].
    intros U s' e' Hrun. by eapply unregister_raised_inv.
  - revert H. apply Depends_raised_inv; [intros; apply require_roles_store |].
    intros U s' e' Hrun. by apply create_user_raised_inv in Hrun as [-> _].
  - revert H. apply Depends_raised_inv; [intros; apply require_roles_store |].
    intros U s' e' Hrun. by eapply delete_user_raised_inv.
  - revert H. apply Depends_raised_inv; [intros; apply require_roles_store | done].
Qed.

Lemma failed_request_changes_nothing_witness :
  let student_login := <["email" := "student@mergington.edu"]>
                         (<["password" := "studpass"]> ∅) : gmap string string in
  let st := (login student_login "studtoken" seed).2 in
  let r := DELETE_unregister (Some "studtoken") "Chess Club" "michael@mergington.edu" in
  let e := mkHTTPException 403 "Students can only unregister themselves" in
  app r st = (Raised e, (app r st).2)
  ∧ (app r st).2 = st.
Proof.
  intros student_login st r e.
  assert (H : app r st = (Raised e, (app r st).2)) by (vm_compute; reflexivity).
  split; [exact H|].
  exact (failed_request_changes_nothing r st (app r st).2 e H).
Defined.

(** X19. What each request can touch.  A login or logout changes at most
    [sessions]; a signup or unregister changes at most [activities]: it
    neither needs nor creates an account for the email it enrolls; creating
    or deleting a user changes at most [users]: a deleted user stays on
    every roster and keeps its sessions.  The redirect, the catalog, [/me]
    and the user list change nothing. *)
Theorem request_footprint (r : request) (st : Store) :
  let st' := (app r st).2 in
  match r with
  | POST_login _ _ | POST_logout _ =>
      users st' = users st ∧ activities st' = activities st
  | POST_signup _ _ _ | DELETE_unregister _ _ _ =>
      users st' = users st ∧ sessions st' = sessions st
  | POST_users_create _ _ | DELETE_users _ _ =>
      sessions st' = sessions st ∧ activities st' = activities st
  | GET_root | GET_activities | GET_me _ | GET_users _ => st' = st
  end.
Proof.
  intros st'. subst st'. destruct r; unfold app; rewrite reply_store;
    unfold route_me, route_signup, route_unregister, route_create_user,
      route_delete_user, route_list_users.
  - done.
  - done.
  - by destruct (login_store st data drawn_token) as [-> | (? & ? & _ & ->)].
  - destruct cookie as [token|]; [by rewrite logout_any | done].
  - by destruct (Depends_cases get_current_user get_me cookie st
                   (fun c s => get_current_user_store s c))
      as [(e & _ & ->) | (U & _ & ->)].
  - destruct (Depends_cases get_current_user (signup_for_activity activity_name email)
                cookie st (fun c s => get_current_user_store s c))
      as [(e & _ & ->) | (U & _ & ->)]; [done|].
    destruct (signup_for_activity activity_name email U st) as [[e|ack] s'] eqn:Hrun.
    + by apply signup_raised_inv in Hrun as ->.
    + destruct (signup_returned_inv _ _ _ _ _ _ Hrun) as (activity & Hact & Hown & Hin).
      rewrite (signup_success _ _ _ _ _ Hact Hown Hin) in Hrun. by injection Hrun as _ <-.
  - destruct (Depends_cases get_current_user (unregister_from_activity activity_name email)
                cookie st (fun c s => get_current_user_store s c))
      as [(e & _ & ->) | (U & _ & ->)]; [done|].
    destruct (unregister_from_activity activity_name email U st) as [[e|ack] s'] eqn:Hrun.
    + by apply unregister_raised_inv in Hrun as ->.
    + destruct (unregister_returned_inv _ _ _ _ _ _ Hrun) as (activity & Hact & Hown & Hin).
      rewrite (unregister_success _ _ _ _ _ Hact Hown Hin) in Hrun.
      by injection Hrun as _ <-.
  - destruct (Depends_cases (require_roles ["admin"; "staff"]) (create_user data) cookie st
                (fun c s => require_roles_store s _ c))
      as [(e & _ & ->) | (U & _ & ->)]; [done|].
    destruct (create_user data U st) as [[e|ack] s'] eqn:Hrun.
    + by apply create_user_raised_inv in Hrun as [-> _].
    + revert Hrun. unfold create_user.
      destruct (nonempty (data !! "email")); [|done].
      destruct (nonempty (data !! "password")); [|done].
      destruct (nonempty (data !! "role")); [|done].
      destruct (nonempty (data !! "name")); [|done].
      run_handler. case_bool_decide; [done|]. case_bool_decide; [done|].
      by intros [= _ <-].
  - destruct (Depends_cases (require_roles ["admin"]) (delete_user email) cookie st
                (fun c s => require_roles_store s _ c))
      as [(e & _ & ->) | (U & _ & ->)]; [done|].
    unfold delete_user. run_handler.
    destruct (users st !! email) as [target|]; [|done].
    by case_bool_decide.
  - by destruct (Depends_cases (require_roles ["admin"; "staff"]) list_users cookie st
                   (fun c s => require_roles_store s _ c))
      as [(e & _ & ->) | (U & _ & ->)].
Qed.
